(** * Plate generation service: orchestration of the remote model calls

    A shallow embedding of the service module that adds or replaces a
    licence plate on a car photograph: [cleanText], [preprocessImage],
    [checkForExistingPlate], [verifyPlateContent] and [generatePlate].

    Strings are sequences of UTF-16 code units, as the runtime has them.
    The remote model, the browser's canvas and the full Unicode case
    mapping are outside the module: they are the fields of [Runtime] and
    [Browser], and every statement quantifies over them.  Effects (model
    calls, progress reports, the two mutable locals of [generatePlate])
    are threaded through a state monad whose exceptions keep the state
    reached when they were raised.  Console output is not modelled.

    The caller's progress callback comes in two forms.  In
    [generatePlate] it is a flag: a callback was passed or not, and a
    call of it returns.  In [Callback.generatePlate] it is an arbitrary
    function that may throw and may act on the remote service; the
    first form is the second at a callback that only returns
    ([generatePlate_of_flag]). *)

From Stdlib Require Import List ZArith NArith Lia Bool String Ascii DecimalString.
From Equations Require Import Equations.
Import ListNotations.

Set Warnings "-notation-for-abbreviation".

(** ** Strings and the built-ins the module calls *)

Module JS.

(** A string is the list of its UTF-16 code units. *)
Definition jsstring := list N.

(** A literal of the source, written with ASCII characters only. *)
Definition lit (s : string) : jsstring :=
  map N_of_ascii (list_ascii_of_string s).

Definition eqb (a b : jsstring) : bool :=
  if list_eq_dec N.eq_dec a b then true else false.

(** Truthiness of a string: only the empty string is falsy. *)
Definition truthy (s : jsstring) : bool :=
  match s with [] => false | _ :: _ => true end.

(** [x || d] for an optional string [x]: [undefined] and the empty
    string both give [d]. *)
Definition or_else (x : option jsstring) (d : jsstring) : jsstring :=
  match x with
  | Some s => if truthy s then s else d
  | None => d
  end.

(** The character class [a-zA-Z0-9]. *)
Definition is_alnum (c : N) : bool :=
  ((48 <=? c) && (c <=? 57) || (65 <=? c) && (c <=? 90)
   || (97 <=? c) && (c <=? 122))%N.

(** Upper-casing of one Basic Latin code unit. *)
Definition upper_latin (c : N) : N :=
  if ((97 <=? c) && (c <=? 122))%N then (c - 32)%N else c.

(** [text.replace(/[^a-zA-Z0-9]/g, '')]: without the [u] flag the class
    is tried on every code unit, and each one outside it is deleted. *)
Definition strip_non_alnum (text : jsstring) : jsstring :=
  filter is_alnum text.

Fixpoint startsWith (s prefix : jsstring) : bool :=
  match prefix, s with
  | [], _ => true
  | _ :: _, [] => false
  | p :: prefix', c :: s' => (c =? p)%N && startsWith s' prefix'
  end.

(** [s.includes(sub)]: [sub] occurs in [s] at some position. *)
Fixpoint includes (s sub : jsstring) : bool :=
  startsWith s sub ||
  match s with
  | [] => false
  | _ :: s' => includes s' sub
  end.

(** [s.split(sep)] for a separator of one code unit. *)
Fixpoint split (sep : N) (s : jsstring) : list jsstring :=
  match s with
  | [] => [[]]
  | c :: s' =>
      if (c =? sep)%N then [] :: split sep s'
      else match split sep s' with
           | [] => [[c]]
           | piece :: pieces => (c :: piece) :: pieces
           end
  end.

(** [imageBase64.split(',')[1]], [undefined] when there is no comma. *)
Definition payload_of (imageBase64 : jsstring) : option jsstring :=
  nth_error (split 44%N imageBase64) 1.

Fixpoint strip_prefix (prefix s : jsstring) : option jsstring :=
  match prefix, s with
  | [], _ => Some s
  | _ :: _, [] => None
  | p :: prefix', c :: s' =>
      if (c =? p)%N then strip_prefix prefix' s' else None
  end.

(** The greedy run [[^;]*] when a [;] ends it. *)
Fixpoint until_semicolon (s : jsstring) : option jsstring :=
  match s with
  | [] => None
  | c :: s' =>
      if (c =? 59)%N then Some []
      else option_map (cons c) (until_semicolon s')
  end.

(** [/data:([^;]+);/] tried at the start of [s]: the capture group. *)
Definition match_mime_here (s : jsstring) : option jsstring :=
  match strip_prefix (lit "data:") s with
  | Some rest =>
      match until_semicolon rest with
      | Some (c :: m) => Some (c :: m)
      | _ => None
      end
  | None => None
  end.

(** [s.match(/data:([^;]+);/)?.[1]]: the leftmost match wins. *)
Fixpoint match_mime (s : jsstring) : option jsstring :=
  match match_mime_here s with
  | Some m => Some m
  | None =>
      match s with
      | [] => None
      | _ :: s' => match_mime s'
      end
  end.

(** White space and line terminators, the code units [trim] removes. *)
Definition is_space (c : N) : bool :=
  ((9 <=? c) && (c <=? 13) || (c =? 32) || (c =? 160) || (c =? 5760)
   || (8192 <=? c) && (c <=? 8202) || (c =? 8232) || (c =? 8233)
   || (c =? 8239) || (c =? 8287) || (c =? 12288) || (c =? 65279))%N.

Fixpoint trimStart (s : jsstring) : jsstring :=
  match s with
  | [] => []
  | c :: s' => if is_space c then trimStart s' else s
  end.

Definition trim (s : jsstring) : jsstring :=
  rev (trimStart (rev (trimStart s))).

(** [sub] occurs in [s]: the meaning of "contains as a substring". *)
Definition Substring (sub s : jsstring) : Prop :=
  exists before after, s = before ++ sub ++ after.

End JS.
Import JS.

(** ** The one floating-point operation: [expected.length * 0.8] *)

Module Float.

Local Open Scope Z_scope.

(** The double nearest to 0.8 is [0x3FE999999999999A], that is
    [mantissa_0_8 / 2^52]. *)
Definition mantissa_0_8 : Z := 3602879701896397.

(** Rounding to binary64 (nearest, ties to even) of the non-negative
    real [p / 2^52]; the result is scaled by [2^52] as well. *)
Definition round53 (p : Z) : Z :=
  let k := Z.log2 p in
  if k <=? 52 then p
  else
    let s := k - 52 in
    let q := p / 2 ^ s in
    let r := p mod 2 ^ s in
    let half := 2 ^ (s - 1) in
    let q' := if (half <? r) || ((r =? half) && Z.odd q) then q + 1 else q in
    q' * 2 ^ s.

(** [n * 0.8] for an integer [n], scaled by [2^52]. *)
Definition times_0_8 (n : Z) : Z := round53 (n * mantissa_0_8).

(** [m > n * 0.8] for integers [m] and [n]. *)
Definition gt_times_0_8 (m n : Z) : bool := times_0_8 n <? m * 2 ^ 52.

End Float.

(** ** Values exchanged with the remote model *)

(** A thrown value, seen through its [message] property. *)
Record JsError := mkError { message : option jsstring }.

(** [new Error(msg)]. *)
Definition Error (msg : jsstring) : JsError := mkError (Some msg).

Inductive Result (A : Type) : Type :=
| Ok (a : A)
| Throw (e : JsError).
Arguments Ok {A} a.
Arguments Throw {A} e.

Record Blob := { blob_data : option jsstring; blob_mimeType : option jsstring }.
Record Part := { part_inlineData : option Blob; part_text : option jsstring }.
Record Content := { parts : option (list Part) }.
Record Candidate := { content : option Content }.
Record Response := { text : option jsstring; candidates : option (list Candidate) }.

(** The argument of [ai.models.generateContent]: the model name and the
    two parts of [contents], an inline payload and an instruction. *)
Record Request := {
  model : jsstring;
  inline_data : option jsstring;
  inline_mimeType : jsstring;
  instruction : jsstring
}.

(** What the module needs from a browser to preprocess the image whose
    source is the given data URI. *)
Record Browser := {
  window_defined : bool;
  document_defined : bool;
  image_loads : jsstring -> bool;              (* onload, or else onerror *)
  context_2d : jsstring -> bool;               (* getContext('2d') is not null *)
  drawImage_ok : jsstring -> bool;             (* false: drawImage throws *)
  getImageData : jsstring -> option (list Z);  (* None: getImageData throws *)
  toDataURL : jsstring -> option jsstring      (* None: toDataURL throws *)
}.

(** Everything outside the module: the credential read from the
    environment, the browser, the remote endpoint with its hidden state,
    and the runtime's Unicode upper-casing. *)
Class Runtime := {
  Remote : Type;
  apiKey : option jsstring;
  dom : Browser;
  generateContent : Request -> Remote -> Result Response * Remote;
  toUpperCase : jsstring -> jsstring
}.

(** On a string of Basic Latin letters and digits the runtime's
    upper-casing is the code-unit map [upper_latin]. *)
Definition LatinUpper (R : Runtime) : Prop :=
  forall s, forallb is_alnum s = true -> toUpperCase s = map upper_latin s.

(** ** The effect monad *)

(** The state an invocation runs in: the hidden state of the remote
    service, the requests issued so far (a ghost log, oldest first), the
    messages handed to [onProgress], and the two locals of
    [generatePlate] that outlive a loop iteration. *)
Record State {R : Runtime} := {
  remote : Remote;
  calls : list Request;
  reports : list jsstring;
  lastGeneratedImage : jsstring;
  lastError : option JsError
}.

Section Monad.

Context {R : Runtime}.

(** A computation returns or throws, and leaves a state either way. *)
Definition M (A : Type) : Type := State -> Result A * State.

Definition ret {A} (a : A) : M A := fun s => (Ok a, s).

Definition throw {A} (e : JsError) : M A := fun s => (Throw e, s).

Definition bind {A B} (m : M A) (k : A -> M B) : M B :=
  fun s =>
    match m s with
    | (Ok a, s') => k a s'
    | (Throw e, s') => (Throw e, s')
    end.

(** [try { body } catch (e) { handler e }]. *)
Definition try_catch {A} (body : M A) (handler : JsError -> M A) : M A :=
  fun s =>
    match body s with
    | (Ok a, s') => (Ok a, s')
    | (Throw e, s') => handler e s'
    end.

(** [await] of a promise that has settled. *)
Definition await {A} (settled : Result A) : M A := fun s => (settled, s).

(** [await ai.models.generateContent(req)], logged. *)
Definition call (req : Request) : M Response :=
  fun s =>
    let (outcome, remote') := generateContent req (remote s) in
    (outcome,
     {| remote := remote'; calls := calls s ++ [req]; reports := reports s;
        lastGeneratedImage := lastGeneratedImage s; lastError := lastError s |}).

(** [if (onProgress) onProgress(status)] for a callback that returns
    and leaves the remote service alone: the flag says whether one was
    passed, and the status is recorded.  This is the case
    [Callback.notify] takes when the caller's function is
    [Callback.quiet]; a function that throws is treated there. *)
Definition notify (onProgress : bool) (status : jsstring) : M unit :=
  fun s =>
    (Ok tt,
     if onProgress then
       {| remote := remote s; calls := calls s; reports := reports s ++ [status];
          lastGeneratedImage := lastGeneratedImage s; lastError := lastError s |}
     else s).

Definition set_lastGeneratedImage (url : jsstring) : M unit :=
  fun s =>
    (Ok tt,
     {| remote := remote s; calls := calls s; reports := reports s;
        lastGeneratedImage := url; lastError := lastError s |}).

Definition set_lastError (e : option JsError) : M unit :=
  fun s =>
    (Ok tt,
     {| remote := remote s; calls := calls s; reports := reports s;
        lastGeneratedImage := lastGeneratedImage s; lastError := e |}).

Definition get_lastGeneratedImage : M jsstring :=
  fun s => (Ok (lastGeneratedImage s), s).

Definition get_lastError : M (option JsError) :=
  fun s => (Ok (lastError s), s).

End Monad.

Declare Scope js_scope.
Delimit Scope js_scope with js.
Notation "x <- m ;; k" := (bind m (fun x => k))
  (at level 61, m at next level, right associativity) : js_scope.
Notation "m ;; k" := (bind m (fun _ => k))
  (at level 61, right associativity) : js_scope.
Open Scope js_scope.

(** ** The module *)

Definition MAX_RETRIES : nat := 4.

Definition FLASH : jsstring := lit "gemini-2.5-flash".
Definition FLASH_IMAGE : jsstring := lit "gemini-2.5-flash-image".

Definition TRANSPARENT_MESSAGE : jsstring :=
  lit "Transparent images are not supported due to rendering bugs. Please upload an image with a solid background.".
Definition API_KEY_MESSAGE : jsstring :=
  lit "API Key is missing in environment variables.".
Definition PLATE_DETECTED_CONFIRMATION : jsstring :=
  lit "PLATE_DETECTED_CONFIRMATION".
Definition NO_IMAGE_MESSAGE : jsstring :=
  lit "No image was returned by the model.".
Definition EXHAUSTED_MESSAGE : jsstring :=
  lit "Failed to generate valid image after multiple attempts".

Definition DETECT_PROMPT : jsstring :=
  lit "Analyze the front and rear bumpers of the car in this image. Look specifically for an oblong, rectangular, or square object mounted on the bumper where a license plate is typically found. Is there a license plate present? Answer strictly with YES or NO.".
Definition VERIFY_PROMPT : jsstring :=
  lit "Read the license plate text from this car. Return ONLY the alphanumeric characters found on the plate. Ignore country names, slogans, or small print.".

Definition PNG_PREFIX : jsstring := lit "data:image/png;base64,".

Inductive Mode := add | replace.

(** The alpha scan of [preprocessImage]:
    [for (let i = 3; i < data.length; i += 16) if (data[i] < 250) ...],
    started at index [i]. *)
Equations has_transparent_sample (data : list Z) (i : nat) : bool
  by wf (List.length data - i) lt :=
  has_transparent_sample data i with lt_dec i (List.length data) := {
    | left _ =>
        if (nth i data 0 <? 250)%Z then true
        else has_transparent_sample data (i + 16)
    | right _ => false }.
Next Obligation. lia. Qed.

(** [preprocessImage]: the settled value of the promise it returns,
    [Ok] when it resolves and [Throw] when it rejects. *)
Definition preprocessImage (b : Browser) (base64Str : jsstring) : Result jsstring :=
  if negb (window_defined b) || negb (document_defined b) then Ok base64Str
  else if negb (image_loads b base64Str) then Ok base64Str
  else if negb (context_2d b base64Str) then Ok base64Str
  else if negb (drawImage_ok b base64Str) then Ok base64Str
  else
    let transparent :=
      match getImageData b base64Str with
      | Some data => has_transparent_sample data 3
      | None => false
      end in
    if transparent then Throw (Error TRANSPARENT_MESSAGE)
    else
      match toDataURL b base64Str with
      | Some jpegData => Ok jpegData
      | None => Ok base64Str
      end.

(** [n] in decimal, as a template literal renders it. *)
Definition decimal (n : nat) : jsstring :=
  lit (DecimalString.NilEmpty.string_of_uint (Nat.to_uint n)).

(** [response.candidates?.[0]?.content?.parts]. *)
Definition response_parts (response : Response) : option (list Part) :=
  match candidates response with
  | Some (candidate :: _) =>
      match content candidate with
      | Some c => parts c
      | None => None
      end
  | _ => None
  end.

(** The scan of the parts for the first inline payload: the data URI
    built from it, or the empty string when there is none. *)
Fixpoint first_inline_image (ps : list Part) : jsstring :=
  match ps with
  | [] => []
  | part :: rest =>
      match part_inlineData part with
      | Some blob =>
          match blob_data blob with
          | Some data =>
              if truthy data then PNG_PREFIX ++ data
              else first_inline_image rest
          | None => first_inline_image rest
          end
      | None => first_inline_image rest
      end
  end.

(** [generatedImageUrl] after the scan of the response of a generation
    call: empty when the response has no parts or no inline payload. *)
Definition extract_image (response : Response) : jsstring :=
  match response_parts response with
  | Some ps => first_inline_image ps
  | None => []
  end.

(** The request of [checkForExistingPlate]: the payload after the comma
    of the data URI, its media type ([image/jpeg] when none is declared)
    and the question. *)
Definition detection_request (imageBase64 : jsstring) : Request :=
  {| model := FLASH;
     inline_data := payload_of imageBase64;
     inline_mimeType := or_else (match_mime imageBase64) (lit "image/jpeg");
     instruction := DETECT_PROMPT |}.

(** The request of [verifyPlateContent]; the default media type is
    [image/png] here. *)
Definition verification_request (imageBase64 : jsstring) : Request :=
  {| model := FLASH;
     inline_data := payload_of imageBase64;
     inline_mimeType := or_else (match_mime imageBase64) (lit "image/png");
     instruction := VERIFY_PROMPT |}.

Section Service.

Context {R : Runtime}.

Definition cleanText (text : jsstring) : jsstring :=
  toUpperCase (strip_non_alnum text).

(** What [checkForExistingPlate] makes of a reply: the text, trimmed
    and upper-cased, contains [YES]. *)
Definition answers_yes (response : Response) : bool :=
  let text :=
    or_else (option_map (fun t => toUpperCase (trim t)) (text response)) [] in
  includes text (lit "YES").

Definition checkForExistingPlate (imageBase64 : jsstring) : M bool :=
  try_catch
    (response <- call (detection_request imageBase64) ;;
     ret (answers_yes response))
    (fun e => ret false).

(** What [verifyPlateContent] makes of a reply. *)
Definition verdict (response : Response) (expectedNumber : jsstring) : bool :=
  let ocrText :=
    match text response with
    | Some t => if truthy t then cleanText t else []
    | None => []
    end in
  let expected := cleanText expectedNumber in
  includes ocrText expected
  || (includes expected ocrText
      && Float.gt_times_0_8 (Z.of_nat (List.length ocrText))
                            (Z.of_nat (List.length expected))).

Definition verifyPlateContent (imageBase64 expectedNumber : jsstring) : M bool :=
  try_catch
    (response <- call (verification_request imageBase64) ;;
     ret (verdict response expectedNumber))
    (fun e => ret false).

Section GeneratePlate.

Variables (imageBase64 plateNumber plateCountry : jsstring).
Variable mode : Mode.
Variable onProgress : bool.
Variable skipDetection : bool.

Definition actionPrompt : jsstring :=
  match mode with
  | add =>
      lit "The car in this image does not have a license plate. Add a realistic "
      ++ plateCountry
      ++ lit " license plate to the front bumper (or rear bumper if the rear is visible)."
  | replace =>
      lit "Replace the existing license plate on the car with a realistic "
      ++ plateCountry ++ lit " license plate."
  end.

(** The template literal of the instruction; [10] is the line feed
    and [34] the double quote. *)
Definition prompt : jsstring :=
  lit "Edit this image. " ++ actionPrompt
  ++ [10%N] ++ lit "      The license plate text must be strictly "
  ++ [34%N] ++ plateNumber ++ [34%N] ++ lit ". "
  ++ [10%N] ++ lit "      Ensure the text is sharp, legible, and perfectly spelled."
  ++ [10%N] ++ lit "      Maintain the exact perspective, lighting, shadows, and reflection of the original car and bumper. "
  ++ [10%N] ++ lit "      Do not modify any other part of the car or the background. High quality, photorealistic.".

(** The request of one generation attempt; it is the same in every
    attempt. *)
Definition generation_request (processedImage : jsstring) : Request :=
  {| model := FLASH_IMAGE;
     inline_data := payload_of processedImage;
     inline_mimeType := or_else (match_mime processedImage) (lit "image/jpeg");
     instruction := prompt |}.

Definition attempt_status (attempt : nat) : jsstring :=
  if 1 <? attempt then
    lit "Refining details (Attempt " ++ decimal attempt ++ lit "/"
    ++ decimal MAX_RETRIES ++ lit ")..."
  else lit "Generating plate...".

(** First half of the [try] block: the generation call and the scan
    of its response, up to the assignment of [lastGeneratedImage]. *)
Definition produce_image (processedImage : jsstring) (attempt : nat)
  : M jsstring :=
  notify onProgress (attempt_status attempt) ;;
  response <- call (generation_request processedImage) ;;
  let generatedImageUrl := extract_image response in
  if negb (truthy generatedImageUrl) then throw (Error NO_IMAGE_MESSAGE)
  else
    set_lastGeneratedImage generatedImageUrl ;;
    ret generatedImageUrl.

(** Second half: the verification of the image just produced. *)
Definition check_image (generatedImageUrl : jsstring) : M bool :=
  notify onProgress (lit "Verifying plate text...") ;;
  verifyPlateContent generatedImageUrl plateNumber.

(** One iteration of the retry loop, the [try] statement.  The value
    is [Some url] when the iteration returns [url] from the function
    and [None] when control reaches the end of the loop body. *)
Definition attempt_body (processedImage : jsstring) (attempt : nat)
  : M (option jsstring) :=
  try_catch
    (generatedImageUrl <- produce_image processedImage attempt ;;
     isPerfect <- check_image generatedImageUrl ;;
     if isPerfect then ret (Some generatedImageUrl) else ret None)
    (fun error => set_lastError (Some error) ;; ret None).

(** [for (let attempt = ...; attempt <= MAX_RETRIES; attempt++)], over
    the values the counter still has to take. *)
Fixpoint retry_loop (processedImage : jsstring) (attempts : list nat)
  : M (option jsstring) :=
  match attempts with
  | [] => ret None
  | attempt :: later =>
      returned <- attempt_body processedImage attempt ;;
      match returned with
      | Some url => ret (Some url)
      | None => retry_loop processedImage later
      end
  end.

(** The statements before the loop: credential check, preprocessing,
    in add mode the detection of a plate already present, and the
    initialisation of the two locals. *)
Definition prepare : M jsstring :=
  if negb (truthy (or_else apiKey [])) then throw (Error API_KEY_MESSAGE)
  else
    notify onProgress (lit "Checking image...") ;;
    processedImage <- await (preprocessImage dom imageBase64) ;;
    (match mode, skipDetection with
     | add, false =>
         notify onProgress (lit "Scanning for existing plates...") ;;
         hasPlate <- checkForExistingPlate processedImage ;;
         if hasPlate then throw (Error PLATE_DETECTED_CONFIRMATION)
         else ret tt
     | _, _ => ret tt
     end) ;;
    set_lastGeneratedImage [] ;;
    set_lastError None ;;
    ret processedImage.

(** The state the listed attempts leave behind, and the state in
    which attempt [k] starts when the loop, entered in state [s],
    gets that far. *)
Fixpoint after_attempts (processedImage : jsstring) (attempts : list nat)
  (s : State) : State :=
  match attempts with
  | [] => s
  | attempt :: later =>
      after_attempts processedImage later
        (snd (attempt_body processedImage attempt s))
  end.

Definition entering (processedImage : jsstring) (k : nat) (s : State) : State :=
  after_attempts processedImage (seq 1 (k - 1)) s.

(** The statements after the loop. *)
Definition conclude : M jsstring :=
  last <- get_lastGeneratedImage ;;
  if truthy last then ret last
  else
    error <- get_lastError ;;
    throw (Error (or_else (match error with
                           | Some e => message e
                           | None => None
                           end) EXHAUSTED_MESSAGE)).

Definition generatePlate : M jsstring :=
  processedImage <- prepare ;;
  returned <- retry_loop processedImage (seq 1 MAX_RETRIES) ;;
  match returned with
  | Some url => ret url
  | None => conclude
  end.

End GeneratePlate.

End Service.

(** ** The callback as a function of the caller

    [onProgress] is whatever function the caller passes.  A call of it
    returns or throws, may depend on the statuses it was handed before,
    and may act on the remote service.  [generatePlate] above takes it
    to return and to leave the service alone; here it is arbitrary, and
    the statements of [generatePlate] are repeated around it: a throw
    before the loop leaves the function, a throw inside the [try] block
    of an attempt is caught with the errors of that attempt. *)

Module Callback.

Section Listener.

Context {R : Runtime}.

(** The caller's function: from the statuses handed over so far, the new
    status and the state of the remote service, to the outcome of the
    call and what it leaves of the service. *)
Definition Listener : Type :=
  list jsstring -> jsstring -> Remote -> Result unit * Remote.

(** A function that returns and leaves the service alone. *)
Definition quiet : Listener := fun _ _ r => (Ok tt, r).

Definition Quiet (listener : Listener) : Prop :=
  forall history status r, listener history status r = (Ok tt, r).

(** The argument [onProgress] that the flag of the first [notify]
    stands for: [quiet] when it is set, [undefined] when it is not. *)
Definition of_flag (flag : bool) : option Listener :=
  if flag then Some quiet else None.

(** [if (onProgress) onProgress(status)]: the status is recorded as
    handed over whether the call returns or throws. *)
Definition notify (onProgress : option Listener) (status : jsstring) : M unit :=
  fun s =>
    match onProgress with
    | Some listener =>
        let (outcome, remote') := listener (reports s) status (remote s) in
        (outcome,
         {| remote := remote'; calls := calls s; reports := reports s ++ [status];
            lastGeneratedImage := lastGeneratedImage s; lastError := lastError s |})
    | None => (Ok tt, s)
    end.

Variables (imageBase64 plateNumber plateCountry : jsstring).
Variable mode : Mode.
Variable onProgress : option Listener.
Variable skipDetection : bool.

Definition produce_image (processedImage : jsstring) (attempt : nat)
  : M jsstring :=
  notify onProgress (attempt_status attempt) ;;
  response <- call (generation_request plateNumber plateCountry mode processedImage) ;;
  let generatedImageUrl := extract_image response in
  if negb (truthy generatedImageUrl) then throw (Error NO_IMAGE_MESSAGE)
  else
    set_lastGeneratedImage generatedImageUrl ;;
    ret generatedImageUrl.

Definition check_image (generatedImageUrl : jsstring) : M bool :=
  notify onProgress (lit "Verifying plate text...") ;;
  verifyPlateContent generatedImageUrl plateNumber.

Definition attempt_body (processedImage : jsstring) (attempt : nat)
  : M (option jsstring) :=
  try_catch
    (generatedImageUrl <- produce_image processedImage attempt ;;
     isPerfect <- check_image generatedImageUrl ;;
     if isPerfect then ret (Some generatedImageUrl) else ret None)
    (fun error => set_lastError (Some error) ;; ret None).

Fixpoint retry_loop (processedImage : jsstring) (attempts : list nat)
  : M (option jsstring) :=
  match attempts with
  | [] => ret None
  | attempt :: later =>
      returned <- attempt_body processedImage attempt ;;
      match returned with
      | Some url => ret (Some url)
      | None => retry_loop processedImage later
      end
  end.

Definition prepare : M jsstring :=
  if negb (truthy (or_else apiKey [])) then throw (Error API_KEY_MESSAGE)
  else
    notify onProgress (lit "Checking image...") ;;
    processedImage <- await (preprocessImage dom imageBase64) ;;
    (match mode, skipDetection with
     | add, false =>
         notify onProgress (lit "Scanning for existing plates...") ;;
         hasPlate <- checkForExistingPlate processedImage ;;
         if hasPlate then throw (Error PLATE_DETECTED_CONFIRMATION)
         else ret tt
     | _, _ => ret tt
     end) ;;
    set_lastGeneratedImage [] ;;
    set_lastError None ;;
    ret processedImage.

Definition generatePlate : M jsstring :=
  processedImage <- prepare ;;
  returned <- retry_loop processedImage (seq 1 MAX_RETRIES) ;;
  match returned with
  | Some url => ret url
  | None => conclude
  end.

End Listener.

End Callback.

(** ** Notions of the specification *)

(** Normalisation in the specification's words: every character that is
    not an ASCII letter or digit is deleted, the rest is upper-cased. *)
Definition normalized (t : jsstring) : jsstring :=
  map upper_latin (filter is_alnum t).

(** The text of a reply, empty when the reply carries none. *)
Definition answer_of (response : Response) : jsstring :=
  match text response with
  | Some t => t
  | None => []
  end.

(** The number of requests of a log that went to the generation model. *)
Definition generation_calls (log : list Request) : nat :=
  List.length (filter (fun req => JS.eqb (model req) FLASH_IMAGE) log).

(** The alpha bytes the scan looks at: every 16th byte from index 3. *)
Definition sampled (data : list Z) (i : nat) : Prop :=
  i < List.length data /\ exists k, i = 3 + 16 * k.

(** The pixel buffer of an image, when the browser gets as far as
    reading it. *)
Definition decoded_buffer (b : Browser) (base64Str : jsstring) : option (list Z) :=
  if window_defined b && document_defined b && image_loads b base64Str
     && context_2d b base64Str && drawImage_ok b base64Str
  then getImageData b base64Str
  else None.

(** ** A concrete runtime: a remote that follows a script

    The remote answers the calls in order with the outcomes of a list and
    fails every call made after the list is used up; upper-casing is the
    Basic Latin map; no rendering surface is present unless one is
    given.  The examples below are run on it. *)

Module Script.

Definition headless : Browser :=
  {| window_defined := false; document_defined := false;
     image_loads := fun _ => false; context_2d := fun _ => false;
     drawImage_ok := fun _ => false; getImageData := fun _ => None;
     toDataURL := fun _ => None |}.

(** A browser that decodes every image to the pixel buffer [data] and
    re-encodes it as [jpeg]. *)
Definition canvas (data : list Z) (jpeg : jsstring) : Browser :=
  {| window_defined := true; document_defined := true;
     image_loads := fun _ => true; context_2d := fun _ => true;
     drawImage_ok := fun _ => true; getImageData := fun _ => Some data;
     toDataURL := fun _ => Some jpeg |}.

Definition follow (req : Request) (script : list (Result Response))
  : Result Response * list (Result Response) :=
  match script with
  | [] => (Throw (Error (lit "fetch failed")), [])
  | outcome :: rest => (outcome, rest)
  end.

Definition runtime : Runtime :=
  {| Remote := list (Result Response);
     apiKey := Some (lit "secret");
     dom := headless;
     generateContent := follow;
     toUpperCase := map upper_latin |}.

Definition start (script : list (Result Response)) : @State runtime :=
  @Build_State runtime script [] [] [] None.

(** A reply that carries the text [t] and no image. *)
Definition says (t : string) : Result Response :=
  Ok {| text := Some (lit t); candidates := None |}.

(** A reply that carries one inline payload, tagged [image/webp]. *)
Definition draws (payload : string) : Result Response :=
  Ok {| text := None;
        candidates :=
          Some [ {| content :=
                      Some {| parts :=
                                Some [ {| part_inlineData :=
                                            Some {| blob_data := Some (lit payload);
                                                    blob_mimeType := Some (lit "image/webp") |};
                                          part_text := None |} ] |} |} ] |}.

(** A call that fails with [new Error(msg)]. *)
Definition fails (msg : string) : Result Response :=
  Throw (Error (lit msg)).

Definition photo : jsstring := lit "data:image/jpeg;base64,AAAA".
Definition render : jsstring := lit "data:image/png;base64,P1".
Definition plate : jsstring := lit "ABC1234".
Definition country : jsstring := lit "German".

(** The first image is verified. *)
Definition first_try : list (Result Response) :=
  [draws "P1"; says "ABC 1234"].

(** The second image is verified, the first is not. *)
Definition second_try : list (Result Response) :=
  [draws "P1"; says "ABC1284"; draws "P2"; says "abc-1234"].

(** Four images, none verified. *)
Definition never_verified : list (Result Response) :=
  [draws "P1"; says "A8C1234"; draws "P2"; says "ABC"; draws "P3";
   fails "timeout"; draws "P4"; says "ABC1Z34"].

(** The detector is told there is a plate. *)
Definition plate_present : list (Result Response) :=
  [says "Yes."; draws "P1"; says "ABC1234"].

(** No attempt gets an image; the last call fails with a message. *)
Definition no_image : list (Result Response) :=
  [fails "quota"; says "I cannot edit this image."; fails "timeout";
   fails "overloaded"].

(** No attempt gets an image; every call fails with [new Error()],
    whose message is the empty string. *)
Definition silent_failures : list (Result Response) :=
  [Throw (Error []); Throw (Error []); Throw (Error []); Throw (Error [])].

(** The first call fails, the second draws, the reader answers
    something unrelated. *)
Definition late_image : list (Result Response) :=
  [fails "busy"; draws "P2"; says "XYZ999"].

(** The first attempt draws, the reader of its image fails; the second
    attempt draws and the reader answers something unrelated. *)
Definition unread_image : list (Result Response) :=
  [draws "P1"; fails "down"; draws "P2"; says "XYZ999"].

(** A pixel buffer of five pixels whose last alpha byte, at index 19,
    is 249. *)
Definition glass : list Z :=
  [12; 34; 56; 255; 12; 34; 56; 0; 12; 34; 56; 0; 12; 34; 56; 0;
   12; 34; 56; 249]%Z.

End Script.

(** ** Further notions: request traces and indifference to progress *)

(** The number of requests of a log that carry the detection question. *)
Definition detection_calls (log : list Request) : nat :=
  List.length (filter (fun req => JS.eqb (instruction req) DETECT_PROMPT) log).

(** The requests of one attempt: the generation request [gen], alone or
    followed by the verification request for an image. *)
Definition attempt_trace (gen : Request) (requests : list Request) : Prop :=
  requests = [gen] \/ exists url, requests = [gen; verification_request url].

(** Two states that differ at most in the progress reports. *)
Definition same_but_reports {R : Runtime} (s t : State) : Prop :=
  remote s = remote t /\ calls s = calls t
  /\ lastGeneratedImage s = lastGeneratedImage t
  /\ lastError s = lastError t.

(** Two computations that cannot be told apart except by the reports:
    from states that differ at most there they give the same outcome and
    leave states that differ at most there. *)
Definition indistinguishable {R : Runtime} {A : Type} (m1 m2 : M A) : Prop :=
  forall s t, same_but_reports s t ->
    fst (m1 s) = fst (m2 t) /\ same_but_reports (snd (m1 s)) (snd (m2 t)).

(** The statuses reported between state [s] and a later state [s']. *)
Definition progress_since {R : Runtime} (s s' : State) : list jsstring :=
  skipn (List.length (reports s)) (reports s').

(** The characters [cleanText] can leave: upper-case letters and digits. *)
Definition is_upper_alnum (c : N) : bool :=
  ((48 <=? c) && (c <=? 57) || (65 <=? c) && (c <=? 90))%N.

(** The data URI [data:<mime>;base64,<payload>]. *)
Definition data_uri (mime payload : jsstring) : jsstring :=
  lit "data:" ++ mime ++ lit ";base64," ++ payload.

(** ** The page component that calls [generatePlate] *)

Module App.

Record CarPlateState := {
  originalImage : option jsstring;
  generatedImage : option jsstring;
  plateNumber : jsstring;
  plateCountry : jsstring;
  mode : Mode;
  isGenerating : bool;
  error : option jsstring;
  statusMessage : option jsstring
}.

(** The two pieces of component state: [state] and [showConfirmation]. *)
Record UI := { state : CarPlateState; showConfirmation : bool }.

Definition setState (update : CarPlateState -> CarPlateState) (ui : UI) : UI :=
  {| state := update (state ui); showConfirmation := showConfirmation ui |}.

Definition setShowConfirmation (shown : bool) (ui : UI) : UI :=
  {| state := state ui; showConfirmation := shown |}.

(** The arguments of [useState]. *)
Definition initial : UI :=
  {| state := {| originalImage := None; generatedImage := None;
                 plateNumber := []; plateCountry := []; mode := add;
                 isGenerating := false; error := None;
                 statusMessage := Some [] |};
     showConfirmation := false |}.

Definition handleImageSelect (base64 : jsstring) : UI -> UI :=
  setState (fun prev =>
    {| originalImage := Some base64; generatedImage := None;
       plateNumber := plateNumber prev; plateCountry := plateCountry prev;
       mode := mode prev; isGenerating := isGenerating prev;
       error := None; statusMessage := Some [] |}).

Definition handleModeSwitch (m : Mode) : UI -> UI :=
  setState (fun prev =>
    {| originalImage := originalImage prev; generatedImage := None;
       plateNumber := plateNumber prev; plateCountry := plateCountry prev;
       mode := m; isGenerating := isGenerating prev;
       error := None; statusMessage := Some [] |}).

(** [prev => ({ ...prev, isGenerating: true, error: null,
    statusMessage: 'Initializing...' })]. *)
Definition starting (prev : CarPlateState) : CarPlateState :=
  {| originalImage := originalImage prev; generatedImage := generatedImage prev;
     plateNumber := plateNumber prev; plateCountry := plateCountry prev;
     mode := mode prev; isGenerating := true;
     error := None; statusMessage := Some (lit "Initializing...") |}.

(** The progress callback: [prev => ({ ...prev, statusMessage: status })]. *)
Definition reporting (status : jsstring) (prev : CarPlateState) : CarPlateState :=
  {| originalImage := originalImage prev; generatedImage := generatedImage prev;
     plateNumber := plateNumber prev; plateCountry := plateCountry prev;
     mode := mode prev; isGenerating := isGenerating prev;
     error := error prev; statusMessage := Some status |}.

(** [prev => ({ ...prev, generatedImage: result, isGenerating: false,
    statusMessage: 'Complete!' })]. *)
Definition completed (result : jsstring) (prev : CarPlateState) : CarPlateState :=
  {| originalImage := originalImage prev; generatedImage := Some result;
     plateNumber := plateNumber prev; plateCountry := plateCountry prev;
     mode := mode prev; isGenerating := false;
     error := error prev; statusMessage := Some (lit "Complete!") |}.

(** [prev => ({ ...prev, isGenerating: false, statusMessage: '' })]. *)
Definition awaiting_confirmation (prev : CarPlateState) : CarPlateState :=
  {| originalImage := originalImage prev; generatedImage := generatedImage prev;
     plateNumber := plateNumber prev; plateCountry := plateCountry prev;
     mode := mode prev; isGenerating := false;
     error := error prev; statusMessage := Some [] |}.

(** [prev => ({ ...prev, isGenerating: false, error: ... })]. *)
Definition failed (text : jsstring) (prev : CarPlateState) : CarPlateState :=
  {| originalImage := originalImage prev; generatedImage := generatedImage prev;
     plateNumber := plateNumber prev; plateCountry := plateCountry prev;
     mode := mode prev; isGenerating := false;
     error := Some text; statusMessage := statusMessage prev |}.

Definition FILL_IN_MESSAGE : jsstring := lit "Please fill in all text fields.".
Definition UNEXPECTED_MESSAGE : jsstring := lit "An unexpected error occurred.".

(** [err.message === "PLATE_DETECTED_CONFIRMATION"]. *)
Definition asks_confirmation (err : JsError) : bool :=
  match message err with
  | Some m => JS.eqb m PLATE_DETECTED_CONFIRMATION
  | None => false
  end.

(** The [catch] block of [handleGenerate]. *)
Definition on_failure (err : JsError) (ui : UI) : UI :=
  if asks_confirmation err then
    setState awaiting_confirmation (setShowConfirmation true ui)
  else
    setState (failed (or_else (message err) UNEXPECTED_MESSAGE)) ui.

(** The progress callback applied to the statuses reported, in order. *)
Definition report_all (statuses : list jsstring) (ui : UI) : UI :=
  fold_left (fun u status => setState (reporting status) u) statuses ui.

(** [handleGenerate(e, skipDetection)], run to completion with no other
    event in between: the page state and the state of the service
    before, and after.  The handler reads [state] as rendered. *)
Definition handleGenerate {R : Runtime} (skipDetection : bool)
  (ui : UI) (s : State) : UI * State :=
  match originalImage (state ui) with
  | None => (ui, s)
  | Some image =>
      if negb (truthy image) then (ui, s)
      else
        let ui1 := setState starting ui in
        if negb (truthy (plateNumber (state ui)))
           || negb (truthy (plateCountry (state ui)))
        then (on_failure (Error FILL_IN_MESSAGE) ui1, s)
        else
          let (result, s') :=
            generatePlate image (plateNumber (state ui)) (plateCountry (state ui))
              (mode (state ui)) true skipDetection s in
          let ui2 := report_all (progress_since s s') ui1 in
          match result with
          | Ok url => (setState (completed url) ui2, s')
          | Throw err => (on_failure err ui2, s')
          end
  end.

Definition handleConfirmAdd {R : Runtime} (ui : UI) (s : State) : UI * State :=
  handleGenerate true (setShowConfirmation false ui) s.

Definition handleSwitchToReplace (ui : UI) : UI :=
  handleModeSwitch replace (setShowConfirmation false ui).

(** The [disabled] attribute the submit button ends up with: the
    page passes [!originalImage || !plateNumber || !plateCountry] as
    [disabled] and [isGenerating] as [isLoading], and the button
    renders [disabled || isLoading]. *)
Definition submit_disabled (ui : UI) : bool :=
  let disabled :=
    negb (truthy (or_else (originalImage (state ui)) []))
    || negb (truthy (plateNumber (state ui)))
    || negb (truthy (plateCountry (state ui))) in
  let isLoading := isGenerating (state ui) in
  disabled || isLoading.

End App.

(** ** Further concrete runtimes *)

Module Fixtures.

(** The scripted runtime without a credential. *)
Definition keyless : Runtime :=
  {| Remote := list (Result Response);
     apiKey := None;
     dom := Script.headless;
     generateContent := Script.follow;
     toUpperCase := map upper_latin |}.

(** The scripted runtime in a browser that decodes every image to the
    buffer [Script.glass]. *)
Definition glassy : Runtime :=
  {| Remote := list (Result Response);
     apiKey := Some (lit "secret");
     dom := Script.canvas Script.glass (lit "data:image/jpeg;base64,BBBB");
     generateContent := Script.follow;
     toUpperCase := map upper_latin |}.

Definition start_in (R : Runtime) (r : @Remote R) : @State R :=
  @Build_State R r [] [] [] None.

(** A callback that throws [thrown] when handed the status [bad] and
    returns on every other status. *)
Definition touchy (bad : jsstring) (thrown : JsError)
  : @Callback.Listener Script.runtime :=
  fun _ status r => if JS.eqb status bad then (Throw thrown, r) else (Ok tt, r).

(** [throw undefined]: a thrown value without a message. *)
Definition nothing : JsError := mkError None.

(** The page once a photo and both texts are entered, in add mode. *)
Definition filled : App.UI :=
  {| App.state :=
       {| App.originalImage := Some Script.photo; App.generatedImage := None;
          App.plateNumber := Script.plate; App.plateCountry := Script.country;
          App.mode := add; App.isGenerating := false; App.error := None;
          App.statusMessage := Some [] |};
     App.showConfirmation := false |}.

(** The page with a photo and a country but no plate number. *)
Definition unnumbered : App.UI :=
  {| App.state :=
       {| App.originalImage := Some Script.photo; App.generatedImage := None;
          App.plateNumber := []; App.plateCountry := Script.country;
          App.mode := add; App.isGenerating := false; App.error := None;
          App.statusMessage := Some [] |};
     App.showConfirmation := false |}.

End Fixtures.

(** ** Facts about the floating-point comparison *)

Module FloatFacts.

Import Float.
Local Open Scope Z_scope.

Lemma five_mantissa n : 5 * (n * mantissa_0_8) = n * 2 ^ 54 + n.
Proof. unfold mantissa_0_8. change (2 ^ 54) with 18014398509481984. lia. Qed.

(** A product below [2^53] is a double as it stands. *)
Lemma gt_exact_small m n :
  0 <= n < 2 ^ 50 -> Z.log2 (n * mantissa_0_8) <= 52 ->
  gt_times_0_8 m n = (4 * n <? 5 * m).
Proof.
  intros Hn Hk. unfold gt_times_0_8, times_0_8, round53.
  destruct (Z.leb_spec (Z.log2 (n * mantissa_0_8)) 52) as [_ | Hgt]; [| lia].
  pose proof (five_mantissa n) as H5.
  change (2 ^ 54) with 18014398509481984 in H5.
  change (2 ^ 50) with 1125899906842624 in Hn.
  change (2 ^ 52) with 4503599627370496.
  destruct (Z.ltb_spec (n * mantissa_0_8) (m * 4503599627370496));
    destruct (Z.ltb_spec (4 * n) (5 * m)); try reflexivity; lia.
Qed.

(** The rounded mantissa is [q] or [q + 1], and [q + 1] only when the
    dropped bits reach half of the last place. *)
Lemma rounded_up_cases (q r half : Z) :
  let q' := if (half <? r) || ((r =? half) && Z.odd q) then q + 1 else q in
  q' = q \/ (q' = q + 1 /\ half <= r).
Proof.
  simpl. destruct (Z.ltb_spec half r); simpl.
  - right. lia.
  - destruct (Z.eqb_spec r half); simpl; [destruct (Z.odd q) |]; lia.
Qed.

(** A larger product is rounded, and the rounding never crosses the
    integer [m]. *)
Lemma gt_exact_large m n :
  0 <= n < 2 ^ 50 -> 52 < Z.log2 (n * mantissa_0_8) ->
  gt_times_0_8 m n = (4 * n <? 5 * m).
Proof.
  intros Hn Hk. unfold gt_times_0_8, times_0_8, round53.
  destruct (Z.leb_spec (Z.log2 (n * mantissa_0_8)) 52) as [Hle | _]; [lia |].
  pose proof (five_mantissa n) as H5.
  set (P := n * mantissa_0_8) in *.
  set (s := Z.log2 P - 52).
  assert (HP : 0 < P).
  { destruct (Z.lt_ge_cases 0 P) as [|Hneg]; [assumption |].
    rewrite (Z.log2_nonpos P Hneg) in Hk. lia. }
  assert (Hs : 1 <= s <= 52).
  { split; [unfold s; lia |].
    assert (Z.log2 P < 105); [| unfold s; lia].
    apply Z.log2_lt_pow2; [assumption |].
    change (2 ^ 105) with 40564819207303340847894502572032.
    change (2 ^ 54) with 18014398509481984 in H5.
    change (2 ^ 50) with 1125899906842624 in Hn. lia. }
  destruct (Z.log2_spec P HP) as [Hlow _].
  replace (Z.log2 P) with (s + 52) in Hlow by (unfold s; lia).
  rewrite Z.pow_add_r in Hlow by lia.
  assert (Hhalf : 2 ^ s = 2 * 2 ^ (s - 1)).
  { replace s with (Z.succ (s - 1)) at 1 by lia. apply Z.pow_succ_r. lia. }
  assert (Hsplit : 2 ^ 52 = 2 ^ s * 2 ^ (52 - s)).
  { rewrite <- Z.pow_add_r by lia. f_equal. lia. }
  assert (HT : 0 < 2 ^ (s - 1)) by (apply Z.pow_pos_nonneg; lia).
  assert (HU : 0 < 2 ^ (52 - s)) by (apply Z.pow_pos_nonneg; lia).
  set (T := 2 ^ s) in *. set (half := 2 ^ (s - 1)) in *.
  set (U := 2 ^ (52 - s)) in *.
  pose proof (Z.div_mod P T ltac:(lia)) as Hdiv.
  pose proof (Z.mod_pos_bound P T ltac:(lia)) as Hr.
  assert (Hexact : 5 * m = 4 * n -> m * 2 ^ 52 <= P / T * T).
  { intros Heq. rewrite Hsplit.
    replace (m * (T * U)) with (m * U * T) by ring.
    apply Z.mul_le_mono_nonneg_r; [lia |].
    apply Z.div_le_lower_bound; [lia |].
    replace (T * (m * U)) with (m * (T * U)) by ring.
    rewrite <- Hsplit.
    change (2 ^ 54) with 18014398509481984 in H5.
    change (2 ^ 52) with 4503599627370496. lia. }
  destruct (rounded_up_cases (P / T) (P mod T) half) as [Hq | [Hq Hup]];
    cbv zeta in Hq; rewrite Hq; clear Hq.
  all: rewrite ?Z.mul_add_distr_r, ?Z.mul_1_l.
  all: replace (T * (P / T)) with (P / T * T) in Hdiv by ring.
  all: clear Hsplit; set (QT := P / T * T) in *; clearbody QT.
  all: change (2 ^ 54) with 18014398509481984 in H5.
  all: change (2 ^ 50) with 1125899906842624 in Hn.
  all: change (2 ^ 52) with 4503599627370496 in *.
  all: destruct (Z.ltb_spec (4 * n) (5 * m)) as [Hlt | Hge].
  all: match goal with |- (?a <? ?b) = _ => destruct (Z.ltb_spec a b) end.
  all: try reflexivity; exfalso.
  all: assert (5 * m = 4 * n \/ 5 * m <= 4 * n - 1 \/ 4 * n + 1 <= 5 * m) as [E | [E | E]] by lia.
  all: try specialize (Hexact E); lia.
Qed.

(** For every length a string can have, [m > n * 0.8] in binary64 is
    the exact comparison [5 m > 4 n]. *)
Lemma gt_times_0_8_exact m n :
  0 <= n < 2 ^ 50 -> gt_times_0_8 m n = (4 * n <? 5 * m).
Proof.
  intros Hn. destruct (Z.le_gt_cases (Z.log2 (n * mantissa_0_8)) 52).
  - now apply gt_exact_small.
  - now apply gt_exact_large.
Qed.

End FloatFacts.

(** ** Facts about the string built-ins *)

Module JSFacts.

Lemma startsWith_spec (p s : jsstring) :
  startsWith s p = true <-> exists rest, s = p ++ rest.
Proof.
  revert s. induction p as [| c p IH]; intros s.
  - destruct s; simpl; split; eauto.
  - destruct s as [| d s]; simpl.
    + split; [discriminate | intros [rest H]; discriminate].
    + rewrite andb_true_iff, N.eqb_eq, IH. split.
      * intros [-> [rest ->]]. now exists rest.
      * intros [rest H]. injection H as -> ->. eauto.
Qed.

Lemma includes_spec (s sub : jsstring) :
  includes s sub = true <-> Substring sub s.
Proof.
  unfold Substring. induction s as [| c s IH]; cbn [includes].
  - rewrite orb_false_r, startsWith_spec. split.
    + intros [rest H]. exists [], rest. exact H.
    + intros [before [after H]]. destruct before; [now exists after |].
      discriminate.
  - rewrite orb_true_iff, startsWith_spec, IH. split.
    + intros [[rest H] | [before [after H]]].
      * exists [], rest. exact H.
      * exists (c :: before), after. simpl. now rewrite H.
    + intros [before [after H]]. destruct before as [| d before].
      * left. now exists after.
      * right. injection H as _ H. eauto.
Qed.

Lemma includes_empty (s : jsstring) : includes s [] = true.
Proof. destruct s; reflexivity. Qed.

Lemma alnum_kept (t : jsstring) : forallb is_alnum (strip_non_alnum t) = true.
Proof.
  unfold strip_non_alnum. induction t as [| c t IH]; simpl; [reflexivity |].
  destruct (is_alnum c) eqn:E; simpl; [now rewrite E |]. exact IH.
Qed.

Lemma normalized_length (t : jsstring) :
  List.length (normalized t) <= List.length t.
Proof.
  unfold normalized. rewrite length_map.
  induction t as [| c t IH]; simpl; [lia |].
  destruct (is_alnum c); simpl; lia.
Qed.

(** A text without letters or digits normalises to the empty string. *)
Lemma normalized_no_alnum (t : jsstring) :
  forallb (fun c => negb (is_alnum c)) t = true -> normalized t = [].
Proof.
  unfold normalized. induction t as [| c t IH]; simpl; [reflexivity |].
  rewrite andb_true_iff, negb_true_iff. intros [-> H]. now apply IH.
Qed.

(** The data URI built by [generatePlate] declares [image/png]. *)
Lemma png_prefix_mime (payload : jsstring) :
  match_mime (PNG_PREFIX ++ payload) = Some (lit "image/png").
Proof. reflexivity. Qed.

End JSFacts.

(** ** The two judgements: detection and verification *)

Ltac unfold_monad :=
  unfold try_catch, bind, call, notify, ret, throw, await,
    set_lastGeneratedImage, set_lastError,
    get_lastGeneratedImage, get_lastError in *.

Section Judgements.

Context {R : Runtime}.

Lemma cleanText_normalized (HU : LatinUpper R) (t : jsstring) :
  cleanText t = normalized t.
Proof. unfold cleanText, normalized. apply HU, JSFacts.alnum_kept. Qed.

(** The state a logged call leaves behind. *)
Lemma call_run (req : Request) (s : State) :
  exists s',
    call req s = (fst (generateContent req (remote s)), s')
    /\ remote s' = snd (generateContent req (remote s))
    /\ calls s' = calls s ++ [req]
    /\ reports s' = reports s
    /\ lastGeneratedImage s' = lastGeneratedImage s
    /\ lastError s' = lastError s.
Proof.
  unfold call. destruct (generateContent req (remote s)) as [outcome remote'].
  eexists. split; [reflexivity |]. simpl. repeat split.
Qed.

(** [verifyPlateContent] issues its one request and never throws: a
    failed call gives [false], a reply gives its verdict. *)
Lemma verifyPlateContent_run (imageBase64 expectedNumber : jsstring) (s : State) :
  exists b s',
    verifyPlateContent imageBase64 expectedNumber s = (Ok b, s')
    /\ b = match fst (generateContent (verification_request imageBase64) (remote s)) with
           | Ok response => verdict response expectedNumber
           | Throw _ => false
           end
    /\ remote s' = snd (generateContent (verification_request imageBase64) (remote s))
    /\ calls s' = calls s ++ [verification_request imageBase64]
    /\ reports s' = reports s
    /\ lastGeneratedImage s' = lastGeneratedImage s
    /\ lastError s' = lastError s.
Proof.
  destruct (call_run (verification_request imageBase64) s) as [s' [Hcall Hframe]].
  unfold verifyPlateContent, try_catch, bind. rewrite Hcall.
  destruct (fst (generateContent (verification_request imageBase64) (remote s)));
    unfold ret; eexists; exists s'; (split; [reflexivity |]); split; auto.
Qed.

(** The same for [checkForExistingPlate]. *)
Lemma checkForExistingPlate_run (imageBase64 : jsstring) (s : State) :
  exists b s',
    checkForExistingPlate imageBase64 s = (Ok b, s')
    /\ b = match fst (generateContent (detection_request imageBase64) (remote s)) with
           | Ok response => answers_yes response
           | Throw _ => false
           end
    /\ remote s' = snd (generateContent (detection_request imageBase64) (remote s))
    /\ calls s' = calls s ++ [detection_request imageBase64]
    /\ reports s' = reports s
    /\ lastGeneratedImage s' = lastGeneratedImage s
    /\ lastError s' = lastError s.
Proof.
  destruct (call_run (detection_request imageBase64) s) as [s' [Hcall Hframe]].
  unfold checkForExistingPlate, try_catch, bind. rewrite Hcall.
  destruct (fst (generateContent (detection_request imageBase64) (remote s)));
    unfold ret; eexists; exists s'; (split; [reflexivity |]); split; auto.
Qed.

(** The verdict, read on the normalised strings, is the containment
    rule with a strict bound of four fifths on the lengths. *)
Lemma verdict_rule (HU : LatinUpper R) (response : Response) (expectedNumber : jsstring) :
  (Z.of_nat (List.length expectedNumber) < 2 ^ 50)%Z ->
  let observed := normalized (answer_of response) in
  let expected := normalized expectedNumber in
  verdict response expectedNumber = true <->
  Substring expected observed
  \/ (Substring observed expected
      /\ 4 * List.length expected < 5 * List.length observed).
Proof.
  intros Hlen observed expected. unfold verdict.
  assert (Hobs : match text response with
                 | Some t => if truthy t then cleanText t else []
                 | None => []
                 end = observed).
  { unfold observed, answer_of. destruct (text response) as [t |]; [| reflexivity].
    destruct t; [reflexivity |]. simpl truthy. cbv iota.
    apply (cleanText_normalized HU). }
  rewrite Hobs, (cleanText_normalized HU). fold expected.
  rewrite FloatFacts.gt_times_0_8_exact.
  - rewrite orb_true_iff, andb_true_iff, !JSFacts.includes_spec, Z.ltb_lt.
    split; (intros [H | [H1 H2]]; [left; exact H | right; split; [exact H1 | lia]]).
  - pose proof (JSFacts.normalized_length expectedNumber). fold expected in H.
    split; lia.
Qed.

End Judgements.

(** ** The retry loop *)

Section Orchestration.

Context {R : Runtime}.
Variables (imageBase64 plateNumber plateCountry : jsstring).
Variable mode : Mode.
Variables (onProgress skipDetection : bool).

Notation produce := (produce_image plateNumber plateCountry mode onProgress).
Notation check := (check_image plateNumber onProgress).
Notation body := (attempt_body plateNumber plateCountry mode onProgress).
Notation loop := (retry_loop plateNumber plateCountry mode onProgress).
Notation after := (after_attempts plateNumber plateCountry mode onProgress).
Notation at_entry := (entering plateNumber plateCountry mode onProgress).
Notation request := (generation_request plateNumber plateCountry mode).

Lemma generation_calls_app (l1 l2 : list Request) :
  generation_calls (l1 ++ l2) = generation_calls l1 + generation_calls l2.
Proof. unfold generation_calls. now rewrite filter_app, length_app. Qed.

Lemma notify_run (status : jsstring) (s : State) :
  exists s',
    notify onProgress status s = (Ok tt, s')
    /\ remote s' = remote s /\ calls s' = calls s
    /\ lastGeneratedImage s' = lastGeneratedImage s
    /\ lastError s' = lastError s.
Proof.
  unfold notify. eexists. split; [reflexivity |].
  destruct onProgress; simpl; repeat split.
Qed.

(** The first half of an attempt issues the generation request and
    nothing else; it assigns [lastGeneratedImage] exactly when it
    returns, and what it returns is a non-empty extracted image. *)
Lemma produce_image_run (processed : jsstring) (k : nat) (s : State) :
  exists outcome g,
    produce processed k s = (outcome, g)
    /\ calls g = calls s ++ [request processed]
    /\ lastError g = lastError s
    /\ match outcome with
       | Ok url =>
           truthy url = true /\ lastGeneratedImage g = url
           /\ exists response, url = extract_image response
       | Throw _ => lastGeneratedImage g = lastGeneratedImage s
       end.
Proof.
  destruct (notify_run (attempt_status k) s) as [s1 [Hn [Hr1 [Hc1 [Hl1 He1]]]]].
  destruct (call_run (request processed) s1) as [s2 [Hcall [_ [Hc2 [_ [Hl2 He2]]]]]].
  unfold produce_image, bind. rewrite Hn, Hcall.
  destruct (fst (generateContent (request processed) (remote s1))) as [response | e].
  - destruct (truthy (extract_image response)) eqn:Himg; simpl.
    + eexists _, _. split; [reflexivity |]. simpl.
      rewrite Hc2, Hc1, He2, He1. repeat split; eauto.
    + eexists _, _. split; [reflexivity |].
      rewrite Hc2, Hc1, He2, He1, Hl2, Hl1. repeat split.
  - eexists _, _. split; [reflexivity |].
    rewrite Hc2, Hc1, He2, He1, Hl2, Hl1. repeat split.
Qed.

(** The second half issues the verification request, never throws and
    leaves the two locals alone. *)
Lemma check_image_run (url : jsstring) (g : State) :
  exists b sv,
    check url g = (Ok b, sv)
    /\ b = match fst (generateContent (verification_request url) (remote g)) with
           | Ok response => verdict response plateNumber
           | Throw _ => false
           end
    /\ calls sv = calls g ++ [verification_request url]
    /\ lastGeneratedImage sv = lastGeneratedImage g
    /\ lastError sv = lastError g.
Proof.
  destruct (notify_run (lit "Verifying plate text...") g)
    as [g1 [Hn [Hr1 [Hc1 [Hl1 He1]]]]].
  destruct (verifyPlateContent_run url plateNumber g1)
    as [b [sv [Hv [Hb [_ [Hc [_ [Hl He]]]]]]]].
  exists b, sv. unfold check_image, bind. rewrite Hn, Hv.
  rewrite Hb, Hc, Hl, He, Hr1, Hc1, Hl1, He1. repeat split.
Qed.

(** An attempt whose generation half throws falls through to the next
    iteration with the error captured. *)
Lemma attempt_body_no_image (processed : jsstring) (k : nat) (s g : State) (e : JsError) :
  produce processed k s = (Throw e, g) ->
  exists s',
    body processed k s = (Ok None, s')
    /\ lastError s' = Some e
    /\ lastGeneratedImage s' = lastGeneratedImage s
    /\ calls s' = calls s ++ [request processed].
Proof.
  intros Hp. destruct (produce_image_run processed k s)
    as [outcome [g' [Hrun [Hc [_ Hl]]]]].
  rewrite Hp in Hrun. injection Hrun as <- <-.
  unfold attempt_body, try_catch, bind. rewrite Hp.
  eexists. split; [reflexivity |]. simpl. auto.
Qed.

(** An attempt that produces an image returns it when the check says
    so and falls through otherwise. *)
Lemma attempt_body_checked (processed : jsstring) (k : nat) (s g sv : State)
      (url : jsstring) (b : bool) :
  produce processed k s = (Ok url, g) ->
  check url g = (Ok b, sv) ->
  body processed k s = (Ok (if b then Some url else None), sv).
Proof.
  intros Hp Hc. unfold attempt_body, try_catch, bind. rewrite Hp, Hc.
  destruct b; reflexivity.
Qed.

(** What one attempt does, whatever the remote answers: it never
    throws, it issues one generation request and at most one
    verification request, and it returns only an image it has just
    stored in [lastGeneratedImage]. *)
Lemma attempt_body_run (processed : jsstring) (k : nat) (s : State) :
  exists returned s' new,
    body processed k s = (Ok returned, s')
    /\ calls s' = calls s ++ new
    /\ generation_calls new = 1
    /\ (lastGeneratedImage s' = lastGeneratedImage s
        \/ exists response,
             truthy (extract_image response) = true
             /\ lastGeneratedImage s' = extract_image response)
    /\ (forall url, returned = Some url -> lastGeneratedImage s' = url /\ truthy url = true).
Proof.
  destruct (produce_image_run processed k s) as [[url | e] [g [Hp [Hc [He Hl]]]]].
  - destruct Hl as [Hurl [Hlast [response Hext]]].
    destruct (check_image_run url g) as [b [sv [Hchk [_ [Hcv [Hlv _]]]]]].
    exists (if b then Some url else None), sv,
      [request processed; verification_request url].
    split; [now apply attempt_body_checked with (g := g) |].
    split; [rewrite Hcv, Hc, <- app_assoc; reflexivity |].
    split; [reflexivity |].
    split.
    + right. exists response. rewrite Hlv, Hlast, <- Hext. auto.
    + intros u Hu. destruct b; [| discriminate]. injection Hu as <-.
      rewrite Hlv. auto.
  - destruct (attempt_body_no_image _ _ _ _ _ Hp) as [s' [Hb [_ [Hl' Hc']]]].
    exists None, s', [request processed].
    split; [exact Hb |]. split; [exact Hc' |]. split; [reflexivity |].
    split; [left; exact Hl' | discriminate].
Qed.

Notation prep := (prepare imageBase64 mode onProgress skipDetection).
Notation generate :=
  (generatePlate imageBase64 plateNumber plateCountry mode onProgress skipDetection).

Lemma retry_loop_app (processed : jsstring) (l1 l2 : list nat) (s : State) :
  loop processed (l1 ++ l2) s =
  match loop processed l1 s with
  | (Ok None, s') => loop processed l2 s'
  | other => other
  end.
Proof.
  revert s. induction l1 as [| a l1 IH]; intros s; simpl; [reflexivity |].
  unfold bind. destruct (body processed a s) as [[[url |] | e] s'].
  - reflexivity.
  - apply IH.
  - reflexivity.
Qed.

Lemma after_attempts_app (processed : jsstring) (l1 l2 : list nat) (s : State) :
  after processed (l1 ++ l2) s = after processed l2 (after processed l1 s).
Proof. revert s. induction l1 as [| a l1 IH]; intros s; simpl; auto. Qed.

Lemma entering_first (processed : jsstring) (s : State) :
  at_entry processed 1 s = s.
Proof. reflexivity. Qed.

Lemma entering_next (processed : jsstring) (k : nat) (s : State) :
  1 <= k ->
  at_entry processed (S k) s = snd (body processed k (at_entry processed k s)).
Proof.
  intros Hk. unfold entering. destruct k as [| n]; [lia |].
  replace (S (S n) - 1) with (S n) by lia. replace (S n - 1) with n by lia.
  rewrite seq_S, after_attempts_app. reflexivity.
Qed.

(** While every attempt falls through, the loop goes on. *)
Lemma loop_falls_through (processed : jsstring) (n : nat) (s : State) :
  (forall j, 1 <= j <= n -> fst (body processed j (at_entry processed j s)) = Ok None) ->
  loop processed (seq 1 n) s = (Ok None, at_entry processed (S n) s).
Proof.
  induction n as [| n IH]; intros Hall; [reflexivity |].
  rewrite seq_S, retry_loop_app, IH by (intros j Hj; apply Hall; lia).
  rewrite (entering_next processed (S n)) by lia.
  specialize (Hall (S n) ltac:(lia)). simpl. unfold bind.
  destruct (body processed (S n) (at_entry processed (S n) s)) as [r s'].
  simpl in Hall. subst r. reflexivity.
Qed.

(** The first attempt that returns ends the loop. *)
Lemma loop_returns_at (processed : jsstring) (k : nat) (s sv : State) (url : jsstring) :
  1 <= k <= MAX_RETRIES ->
  (forall j, 1 <= j < k -> fst (body processed j (at_entry processed j s)) = Ok None) ->
  body processed k (at_entry processed k s) = (Ok (Some url), sv) ->
  loop processed (seq 1 MAX_RETRIES) s = (Ok (Some url), sv).
Proof.
  intros Hk Hbefore Hret.
  replace MAX_RETRIES with ((k - 1) + S (MAX_RETRIES - k)) at 1 by lia.
  rewrite seq_app, retry_loop_app, loop_falls_through
    by (intros j Hj; apply Hbefore; lia).
  replace (S (k - 1)) with k by lia. replace (1 + (k - 1)) with k by lia.
  simpl. unfold bind. rewrite Hret. reflexivity.
Qed.

(** The loop never throws; it issues at most one generation request
    per attempt; the image it returns, and the one it leaves in
    [lastGeneratedImage], was extracted from a reply unless the slot
    still holds what it held on entry. *)
Lemma retry_loop_run (processed : jsstring) (l : list nat) (s : State) :
  exists returned s' new,
    loop processed l s = (Ok returned, s')
    /\ calls s' = calls s ++ new
    /\ generation_calls new <= List.length l
    /\ (lastGeneratedImage s' = lastGeneratedImage s
        \/ exists response,
             truthy (extract_image response) = true
             /\ lastGeneratedImage s' = extract_image response)
    /\ (forall url, returned = Some url -> lastGeneratedImage s' = url /\ truthy url = true).
Proof.
  revert s. induction l as [| a l IH]; intros s.
  - exists None, s, []. simpl. rewrite app_nil_r.
    repeat split; auto; discriminate.
  - destruct (attempt_body_run processed a s)
      as [returned [s1 [new1 [Hb [Hc1 [Hg1 [Hl1 Hr1]]]]]]].
    simpl. unfold bind. rewrite Hb. destruct returned as [url |].
    + exists (Some url), s1, new1. repeat split; auto.
      * rewrite Hg1. simpl. lia.
      * apply Hr1. congruence.
      * apply Hr1. congruence.
    + destruct (IH s1) as [returned [s2 [new2 [Hloop [Hc2 [Hg2 [Hl2 Hr2]]]]]]].
      exists returned, s2, (new1 ++ new2). split; [exact Hloop |].
      split; [rewrite Hc2, Hc1, app_assoc; reflexivity |].
      split; [rewrite generation_calls_app, Hg1; simpl; lia |].
      split; [| exact Hr2].
      destruct Hl2 as [Hsame | Hnew]; [rewrite Hsame; exact Hl1 | right; exact Hnew].
Qed.

(** The statements before the loop issue no generation request, and
    when they complete both locals are initialised. *)
Lemma prepare_run (s0 : State) :
  exists outcome s1 new,
    prep s0 = (outcome, s1)
    /\ calls s1 = calls s0 ++ new
    /\ generation_calls new = 0
    /\ (forall processed, outcome = Ok processed ->
          lastGeneratedImage s1 = [] /\ lastError s1 = None).
Proof.
  unfold prepare.
  destruct (negb (truthy (or_else apiKey []))).
  { exists (Throw (Error API_KEY_MESSAGE)), s0, []. unfold throw.
    rewrite app_nil_r. repeat split; discriminate. }
  destruct (notify_run (lit "Checking image...") s0) as [s1 [Hn1 [Hr1 [Hc1 _]]]].
  unfold bind at 1. rewrite Hn1. unfold bind at 1, await.
  destruct (preprocessImage dom imageBase64) as [processed | e].
  2: { exists (Throw e), s1, []. rewrite app_nil_r. repeat split; auto; discriminate. }
  assert (Hrest : forall s (new : list Request),
             calls s = calls s0 ++ new -> generation_calls new = 0 ->
             exists outcome s2 new',
               (set_lastGeneratedImage [] ;; set_lastError None ;; ret processed) s
               = (outcome, s2)
               /\ calls s2 = calls s0 ++ new' /\ generation_calls new' = 0
               /\ (forall p, outcome = Ok p ->
                     lastGeneratedImage s2 = [] /\ lastError s2 = None)).
  { intros s new Hc Hg. eexists _, _, new. unfold_monad. simpl.
    split; [reflexivity |]. simpl. auto. }
  destruct mode, skipDetection; unfold bind at 1.
  1, 3, 4: unfold ret at 1; apply (Hrest s1 []); [rewrite app_nil_r; exact Hc1 | reflexivity].
  destruct (notify_run (lit "Scanning for existing plates...") s1)
    as [s2 [Hn2 [Hr2 [Hc2 _]]]].
  destruct (checkForExistingPlate_run processed s2) as [b [s3 [Hd [_ [_ [Hc3 _]]]]]].
  unfold bind at 1. rewrite Hn2. unfold bind at 1. rewrite Hd.
  destruct b.
  - exists (Throw (Error PLATE_DETECTED_CONFIRMATION)), s3, [detection_request processed].
    unfold throw. rewrite Hc3, Hc2, Hc1. repeat split; discriminate.
  - unfold ret at 1. apply (Hrest s3 [detection_request processed]); [| reflexivity].
    rewrite Hc3, Hc2, Hc1. reflexivity.
Qed.

Lemma generatePlate_unfold (s0 : State) :
  generate s0 =
  match prep s0 with
  | (Ok processed, s1) =>
      match loop processed (seq 1 MAX_RETRIES) s1 with
      | (Ok (Some url), s2) => (Ok url, s2)
      | (Ok None, s2) => conclude s2
      | (Throw e, s2) => (Throw e, s2)
      end
  | (Throw e, s1) => (Throw e, s1)
  end.
Proof.
  unfold generatePlate, bind. destruct (prep s0) as [[processed | e] s1]; [| reflexivity].
  destruct (loop processed (seq 1 MAX_RETRIES) s1) as [[[url |] | e] s2]; reflexivity.
Qed.

(** An attempt that runs, produces an image and sees it verified ends
    the invocation in the state the verification left. *)
Lemma generate_returns_verified
      (s0 s1 g sv : State) (processed url : jsstring) (k : nat) :
  prep s0 = (Ok processed, s1) ->
  1 <= k <= MAX_RETRIES ->
  (forall j, 1 <= j < k ->
     fst (body processed j (at_entry processed j s1)) = Ok None) ->
  produce processed k (at_entry processed k s1) = (Ok url, g) ->
  check url g = (Ok true, sv) ->
  generate s0 = (Ok url, sv).
Proof.
  intros Hprep Hk Hbefore Hp Hc.
  rewrite generatePlate_unfold, Hprep.
  rewrite (@loop_returns_at processed k s1 sv url); auto.
  apply (attempt_body_checked _ _ _ _ _ _ _ Hp Hc).
Qed.

(** C7: when attempt [k] runs (no earlier attempt returned), produces
    an image and the verification of that image returns true, the
    invocation returns that image in the very state the verification
    left: the requests issued are those up to the verification request
    of attempt [k], and no later generation or verification call is
    made. *)
Theorem verified_attempt_returns_at_once
        (s0 s1 g sv : State) (processed url : jsstring) (k : nat) :
  prep s0 = (Ok processed, s1) ->
  1 <= k <= MAX_RETRIES ->
  (forall j, 1 <= j < k ->
     fst (body processed j (at_entry processed j s1)) = Ok None) ->
  produce processed k (at_entry processed k s1) = (Ok url, g) ->
  check url g = (Ok true, sv) ->
  generate s0 = (Ok url, sv)
  /\ calls sv = calls (at_entry processed k s1)
                ++ [request processed; verification_request url].
Proof.
  intros Hprep Hk Hbefore Hp Hc. split.
  - now apply generate_returns_verified with (s1 := s1) (g := g) (processed := processed) (k := k).
  - destruct (produce_image_run processed k (at_entry processed k s1))
      as [o [g' [Hrun [Hcg _]]]].
    rewrite Hp in Hrun. injection Hrun as <- <-.
    destruct (check_image_run url g) as [b [sv' [Hrun [_ [Hcv _]]]]].
    rewrite Hc in Hrun. injection Hrun as <- <-.
    rewrite Hcv, Hcg, <- app_assoc. reflexivity.
Qed.

(** C2: when each of the four attempts produces an image and each
    verification returns false, the invocation returns the image that
    attempt 4 produced. *)
Theorem last_image_is_the_fallback (s0 s1 : State) (processed : jsstring) :
  prep s0 = (Ok processed, s1) ->
  (forall k, 1 <= k <= MAX_RETRIES ->
     exists url g sv,
       produce processed k (at_entry processed k s1) = (Ok url, g)
       /\ check url g = (Ok false, sv)) ->
  exists url g,
    produce processed MAX_RETRIES (at_entry processed MAX_RETRIES s1) = (Ok url, g)
    /\ fst (generate s0) = Ok url.
Proof.
  intros Hprep Hall.
  assert (Hfall : forall j, 1 <= j <= MAX_RETRIES ->
                    fst (body processed j (at_entry processed j s1)) = Ok None).
  { intros j Hj. destruct (Hall j Hj) as [url [g [sv [Hp Hc]]]].
    now rewrite (attempt_body_checked _ _ _ _ _ _ _ Hp Hc). }
  destruct (Hall MAX_RETRIES ltac:(unfold MAX_RETRIES; lia)) as [url [g [sv [Hp Hc]]]].
  exists url, g. split; [exact Hp |].
  rewrite generatePlate_unfold, Hprep, (loop_falls_through _ _ _ Hfall).
  rewrite entering_next by (unfold MAX_RETRIES; lia).
  rewrite (attempt_body_checked _ _ _ _ _ _ _ Hp Hc). simpl snd.
  destruct (produce_image_run processed MAX_RETRIES (at_entry processed MAX_RETRIES s1))
    as [o [g' [Hrun [_ [_ Hl]]]]].
  rewrite Hp in Hrun. injection Hrun as <- <-. destruct Hl as [Htruthy [Hlast _]].
  destruct (check_image_run url g) as [b [sv' [Hrun [_ [_ [Hlv _]]]]]].
  rewrite Hc in Hrun. injection Hrun as <- <-.
  unfold conclude, get_lastGeneratedImage, bind. rewrite Hlv, Hlast, Htruthy.
  reflexivity.
Qed.

(** C5, as the code has it: when none of the four attempts produces
    an image, the invocation throws and returns no image; the message
    is that of the error attempt 4 captured when that message is a
    non-empty string, and the generic one otherwise. *)
Theorem no_image_exhausts_retries (s0 s1 : State) (processed : jsstring) :
  prep s0 = (Ok processed, s1) ->
  (forall k, 1 <= k <= MAX_RETRIES ->
     exists e g, produce processed k (at_entry processed k s1) = (Throw e, g)) ->
  exists e g,
    produce processed MAX_RETRIES (at_entry processed MAX_RETRIES s1) = (Throw e, g)
    /\ fst (generate s0) = Throw (Error (or_else (message e) EXHAUSTED_MESSAGE)).
Proof.
  intros Hprep Hall.
  assert (Hfall : forall j, 1 <= j <= MAX_RETRIES ->
                    fst (body processed j (at_entry processed j s1)) = Ok None).
  { intros j Hj. destruct (Hall j Hj) as [e [g Hp]].
    destruct (attempt_body_no_image _ _ _ _ _ Hp) as [s' [Hb _]]. now rewrite Hb. }
  assert (Hempty : forall j, 1 <= j <= S MAX_RETRIES ->
                     lastGeneratedImage (at_entry processed j s1) = []).
  { destruct (prepare_run s0) as [o [s1' [new [Hrun [_ [_ Hinit]]]]]].
    rewrite Hprep in Hrun. injection Hrun as <- <-.
    destruct (Hinit processed eq_refl) as [Hinit1 _].
    induction j as [| j IH]; intros Hj; [lia |].
    destruct j as [| j]; [exact Hinit1 |].
    rewrite entering_next by lia.
    destruct (Hall (S j) ltac:(lia)) as [e [g Hp]].
    destruct (attempt_body_no_image _ _ _ _ _ Hp) as [s' [Hb [_ [Hl _]]]].
    rewrite Hb. simpl. rewrite Hl. apply IH. lia. }
  destruct (Hall MAX_RETRIES ltac:(unfold MAX_RETRIES; lia)) as [e [g Hp]].
  exists e, g. split; [exact Hp |].
  rewrite generatePlate_unfold, Hprep, (loop_falls_through _ _ _ Hfall).
  specialize (Hempty (S MAX_RETRIES) ltac:(unfold MAX_RETRIES; lia)).
  rewrite entering_next in * by (unfold MAX_RETRIES; lia).
  destruct (attempt_body_no_image _ _ _ _ _ Hp) as [s' [Hb [He _]]].
  rewrite Hb in *. simpl snd in *.
  unfold conclude, get_lastGeneratedImage, get_lastError, bind, throw.
  rewrite Hempty. simpl. rewrite He. reflexivity.
Qed.

Lemma conclude_state (s : State) : snd (conclude s) = s.
Proof.
  unfold conclude, get_lastGeneratedImage, get_lastError, bind, ret, throw.
  destruct (truthy (lastGeneratedImage s)); reflexivity.
Qed.

(** C6: an invocation issues at most [MAX_RETRIES] = 4 requests to the
    generation model, whatever the remote answers. *)
Theorem at_most_four_generation_calls (s0 : State) :
  exists new,
    calls (snd (generate s0)) = calls s0 ++ new
    /\ generation_calls new <= MAX_RETRIES
    /\ MAX_RETRIES = 4.
Proof.
  rewrite generatePlate_unfold.
  destruct (prepare_run s0) as [outcome [s1 [new1 [Hprep [Hc1 [Hg1 _]]]]]].
  rewrite Hprep. destruct outcome as [processed | e].
  - destruct (retry_loop_run processed (seq 1 MAX_RETRIES) s1)
      as [returned [s2 [new2 [Hloop [Hc2 [Hg2 _]]]]]].
    rewrite Hloop. exists (new1 ++ new2).
    split; [| split; [| reflexivity]].
    + destruct returned; [simpl | rewrite conclude_state];
        rewrite Hc2, Hc1, app_assoc; reflexivity.
    + rewrite generation_calls_app, Hg1. rewrite length_seq in Hg2. exact Hg2.
  - exists new1. simpl. rewrite Hg1. repeat split; [exact Hc1 | lia].
Qed.

Lemma first_inline_image_png (ps : list Part) :
  first_inline_image ps = []
  \/ exists payload, first_inline_image ps = PNG_PREFIX ++ payload.
Proof.
  induction ps as [| part ps IH]; simpl; [now left |].
  destruct (part_inlineData part) as [blob |]; [| exact IH].
  destruct (blob_data blob) as [data |]; [| exact IH].
  destruct (truthy data); [right; now exists data | exact IH].
Qed.

Lemma extract_image_png (response : Response) :
  truthy (extract_image response) = true ->
  exists payload, extract_image response = PNG_PREFIX ++ payload.
Proof.
  unfold extract_image. destruct (response_parts response) as [ps |]; [| discriminate].
  destruct (first_inline_image_png ps) as [-> | H]; [discriminate | intros _; exact H].
Qed.

(** C9: every image an invocation returns is a data URI that starts
    with [data:image/png;base64,], so the media type it declares is
    [image/png]; the media type the model attached to the payload
    plays no part. *)
Theorem returned_image_declares_png (s0 s' : State) (url : jsstring) :
  generate s0 = (Ok url, s') ->
  (exists payload, url = PNG_PREFIX ++ payload)
  /\ match_mime url = Some (lit "image/png").
Proof.
  intros Hrun.
  assert (Hpng : exists payload, url = PNG_PREFIX ++ payload).
  { rewrite generatePlate_unfold in Hrun.
    destruct (prepare_run s0) as [outcome [s1 [new1 [Hprep [_ [_ Hinit]]]]]].
    rewrite Hprep in Hrun. destruct outcome as [processed | e]; [| discriminate].
    destruct (Hinit processed eq_refl) as [Hempty _].
    destruct (retry_loop_run processed (seq 1 MAX_RETRIES) s1)
      as [returned [s2 [new2 [Hloop [_ [_ [Hlast Hret]]]]]]].
    rewrite Hloop in Hrun.
    assert (Hurl : lastGeneratedImage s2 = url /\ truthy url = true).
    { destruct returned as [u |].
      - injection Hrun as <- <-. now apply Hret.
      - unfold conclude, get_lastGeneratedImage, get_lastError, bind, ret, throw in Hrun.
        destruct (truthy (lastGeneratedImage s2)) eqn:Ht; [| discriminate].
        injection Hrun as <- <-. auto. }
    destruct Hurl as [Hurl Htruthy]. rewrite Hurl in Hlast.
    destruct Hlast as [Hsame | [response [Hresp Hext]]].
    - rewrite Hsame, Hempty in Htruthy. discriminate.
    - rewrite Hext. now apply extract_image_png. }
  split; [exact Hpng |]. destruct Hpng as [payload ->].
  apply JSFacts.png_prefix_mime.
Qed.

(** C3: in add mode with detection not skipped, when the detector
    reports a plate on the preprocessed image, the invocation throws
    the error [PLATE_DETECTED_CONFIRMATION]; the only request issued up
    to then is the detection request, so no generation request
    precedes the signal. *)
Theorem detected_plate_stops_before_generation (s0 : State) (processed : jsstring) :
  truthy (or_else apiKey []) = true ->
  preprocessImage dom imageBase64 = Ok processed ->
  fst (checkForExistingPlate processed s0) = Ok true ->
  exists s',
    generatePlate imageBase64 plateNumber plateCountry add onProgress false s0
    = (Throw (Error PLATE_DETECTED_CONFIRMATION), s')
    /\ calls s' = calls s0 ++ [detection_request processed]
    /\ generation_calls (calls s') = generation_calls (calls s0).
Proof.
  intros Hkey Hpre Hdetect.
  destruct (notify_run (lit "Checking image...") s0) as [s1 [Hn1 [Hr1 [Hc1 _]]]].
  destruct (notify_run (lit "Scanning for existing plates...") s1)
    as [s2 [Hn2 [Hr2 [Hc2 _]]]].
  destruct (checkForExistingPlate_run processed s2) as [b [s3 [Hd [Hb [_ [Hc3 _]]]]]].
  destruct (checkForExistingPlate_run processed s0) as [b0 [s3' [Hd0 [Hb0 _]]]].
  rewrite Hd0 in Hdetect. simpl in Hdetect. injection Hdetect as ->.
  rewrite Hr2, Hr1, <- Hb0 in Hb. subst b.
  exists s3. split; [| split].
  - unfold generatePlate, prepare. rewrite Hkey. simpl negb. cbv iota.
    unfold bind at 1 2. rewrite Hn1. unfold bind at 1, await. rewrite Hpre.
    unfold bind at 1 2. rewrite Hn2. unfold bind at 1. rewrite Hd. reflexivity.
  - rewrite Hc3, Hc2, Hc1. reflexivity.
  - rewrite Hc3, Hc2, Hc1, generation_calls_app.
    change (generation_calls [detection_request processed]) with 0. lia.
Qed.

(** C10, as the code has it: when the requested plate text has no ASCII
    letter or digit, it normalises to the empty string and every
    verification whose model call succeeds returns true, whatever the
    model answered; so the first image an invocation produces is
    returned when the verification call for it succeeds.  A
    verification whose model call fails returns false all the same, so
    that image is not always the one returned. *)
Theorem empty_expected_text_always_verifies (HU : LatinUpper R) :
  forallb (fun c => negb (is_alnum c)) plateNumber = true ->
  normalized plateNumber = []
  /\ (forall (image : jsstring) (s : State) (response : Response) (remote' : Remote),
        generateContent (verification_request image) (remote s) = (Ok response, remote') ->
        fst (verifyPlateContent image plateNumber s) = Ok true)
  /\ (forall (s0 s1 g : State) (processed url : jsstring) (k : nat)
             (response : Response) (remote' : Remote),
        prep s0 = (Ok processed, s1) ->
        1 <= k <= MAX_RETRIES ->
        (forall j, 1 <= j < k ->
           exists e g', produce processed j (at_entry processed j s1) = (Throw e, g')) ->
        produce processed k (at_entry processed k s1) = (Ok url, g) ->
        generateContent (verification_request url) (remote g) = (Ok response, remote') ->
        fst (generate s0) = Ok url)
  /\ (forall (image : jsstring) (s : State) (e : JsError) (remote' : Remote),
        generateContent (verification_request image) (remote s) = (Throw e, remote') ->
        fst (verifyPlateContent image plateNumber s) = Ok false).
Proof.
  intros Hplate.
  pose proof (JSFacts.normalized_no_alnum plateNumber Hplate) as Hnorm.
  assert (Hverdict : forall response, verdict response plateNumber = true).
  { intros response. unfold verdict.
    rewrite (cleanText_normalized HU plateNumber), Hnorm, JSFacts.includes_empty.
    reflexivity. }
  split; [exact Hnorm | split; [| split]].
  - intros image s response remote' Hreply.
    destruct (verifyPlateContent_run image plateNumber s) as [b [s' [Hrun [Hb _]]]].
    rewrite Hrun, Hb, Hreply. simpl. now rewrite Hverdict.
  - intros s0 s1 g processed url k response remote' Hprep Hk Hnone Hp Hreply.
    destruct (check_image_run url g) as [b [sv [Hc [Hb _]]]].
    rewrite Hreply in Hb. simpl in Hb. rewrite Hverdict in Hb. subst b.
    assert (Hfall : forall j, 1 <= j < k ->
                      fst (body processed j (at_entry processed j s1)) = Ok None).
    { intros j Hj. destruct (Hnone j Hj) as [e [g' Hthrow]].
      destruct (attempt_body_no_image _ _ _ _ _ Hthrow) as [s' [Hbody _]].
      now rewrite Hbody. }
    now rewrite (generate_returns_verified s0 s1 g sv processed url k
                   Hprep Hk Hfall Hp Hc).
  - intros image s e remote' Hreply.
    destruct (verifyPlateContent_run image plateNumber s) as [b [s' [Hrun [Hb _]]]].
    now rewrite Hrun, Hb, Hreply.
Qed.

End Orchestration.

(** ** Preprocessing *)

Section Preprocessing.

(** The scan started at index [i] finds a byte below 250 exactly when
    one of the indices [i], [i + 16], [i + 32], ... of the buffer holds
    one. *)
Lemma has_transparent_sample_spec (data : list Z) (i : nat) :
  has_transparent_sample data i = true <->
  exists j, (j < List.length data /\ exists k, j = i + 16 * k)
            /\ (nth j data 0 < 250)%Z.
Proof.
  funelim (has_transparent_sample data i); clear Heqcall.
  - destruct (Z.ltb_spec (nth i data 0%Z) 250%Z) as [Hlow | Hhigh].
    + split; [intros _ | reflexivity].
      exists i. split; [split; [assumption | exists 0; lia] | assumption].
    + rewrite H. split.
      * intros [j [[Hj [k ->]] Hlow]].
        exists (i + 16 + 16 * k). split; [split; [assumption | exists (S k); lia] | assumption].
      * intros [j [[Hj [k ->]] Hlow]]. destruct k as [| k].
        -- replace (i + 16 * 0) with i in Hlow by lia. lia.
        -- exists (i + 16 * S k). split; [split; [assumption | exists k; lia] | assumption].
  - split; [discriminate |]. intros [j [[Hj [k ->]] _]]. lia.
Qed.

(** C4: [preprocessImage] rejects with the transparency error exactly
    when the browser decodes the image to a pixel buffer and one of the
    sampled bytes of that buffer (index 3, 19, 35, ...) is below 250;
    it rejects with nothing else; and without a window or a document
    it resolves to its input. *)
Theorem transparency_is_the_only_rejection (b : Browser) (base64Str : jsstring) :
  (preprocessImage b base64Str = Throw (Error TRANSPARENT_MESSAGE) <->
     exists data,
       decoded_buffer b base64Str = Some data
       /\ exists i, sampled data i /\ (nth i data 0 < 250)%Z)
  /\ (forall e, preprocessImage b base64Str = Throw e -> e = Error TRANSPARENT_MESSAGE)
  /\ (window_defined b = false \/ document_defined b = false ->
        preprocessImage b base64Str = Ok base64Str).
Proof.
  unfold preprocessImage, decoded_buffer, sampled.
  destruct (window_defined b), (document_defined b); simpl;
    try (split; [split; [discriminate | intros [data [H _]]; discriminate] |
                 split; [discriminate | reflexivity]]).
  destruct (image_loads b base64Str), (context_2d b base64Str),
    (drawImage_ok b base64Str); simpl;
    try (split; [split; [discriminate | intros [data [H _]]; discriminate] |
                 split; [discriminate | intros [H | H]; discriminate]]).
  destruct (getImageData b base64Str) as [data |].
  - destruct (has_transparent_sample data 3) eqn:Hscan.
    + apply has_transparent_sample_spec in Hscan.
      split; [split; [intros _; exists data; split; [reflexivity | exact Hscan] | reflexivity] |].
      split; [intros e H; now injection H | intros [H | H]; discriminate].
    + assert (Hnone : ~ exists j, (j < List.length data /\ exists k, j = 3 + 16 * k)
                                  /\ (nth j data 0 < 250)%Z).
      { rewrite <- has_transparent_sample_spec, Hscan. discriminate. }
      split; [split |].
      * destruct (toDataURL b base64Str); discriminate.
      * intros [data' [Heq Hex]]. injection Heq as <-. contradiction.
      * split; [destruct (toDataURL b base64Str); discriminate
               | intros [H | H]; discriminate].
  - split; [split |].
    + destruct (toDataURL b base64Str); discriminate.
    + intros [data [H _]]. discriminate.
    + split; [destruct (toDataURL b base64Str); discriminate
             | intros [H | H]; discriminate].
Qed.

End Preprocessing.

(** ** Detection and verification, as the specification reads them *)

Section Verdicts.

Context {R : Runtime}.

(** C8: [checkForExistingPlate] always returns and never throws; it
    returns false when the model call fails, and on a reply it returns
    true exactly when the reply has a text whose trimmed, upper-cased
    form contains [YES]. *)
Theorem detector_never_throws (imageBase64 : jsstring) (s : State) :
  exists b s',
    checkForExistingPlate imageBase64 s = (Ok b, s')
    /\ match fst (generateContent (detection_request imageBase64) (remote s)) with
       | Throw _ => b = false
       | Ok response =>
           b = true <->
           exists t, text response = Some t
                     /\ Substring (lit "YES") (toUpperCase (trim t))
       end.
Proof.
  destruct (checkForExistingPlate_run imageBase64 s) as [b [s' [Hrun [Hb _]]]].
  exists b, s'. split; [exact Hrun |].
  destruct (fst (generateContent (detection_request imageBase64) (remote s)))
    as [response | e]; [| exact Hb].
  subst b. unfold answers_yes.
  destruct (text response) as [t |]; simpl.
  - assert (Hsame : (if truthy (toUpperCase (trim t)) then toUpperCase (trim t) else [])
                    = toUpperCase (trim t))
      by (destruct (toUpperCase (trim t)); reflexivity).
    rewrite Hsame, JSFacts.includes_spec. split.
    + intros H. now exists t.
    + intros [t' [Heq H]]. now injection Heq as <-.
  - split; [discriminate | intros [t [Heq _]]; discriminate].
Qed.

(** C1, as the code has it: on a reply of the model,
    [verifyPlateContent] returns true exactly when, on the normalised
    strings, the observed text contains the expected one, or the
    expected text contains the observed one and the observed length is
    strictly more than four fifths of the expected length.  With
    [ABC1234] expected, the answer [abc-1234] verifies and the answer
    [AB1234], which is not a run of consecutive characters of
    [ABC1234], does not. *)
Theorem verify_follows_containment_rule
        (HU : LatinUpper R) (image expectedNumber : jsstring)
        (s : State) (response : Response) (remote' : Remote) :
  generateContent (verification_request image) (remote s) = (Ok response, remote') ->
  (Z.of_nat (List.length expectedNumber) < 2 ^ 50)%Z ->
  let observed := normalized (answer_of response) in
  let expected := normalized expectedNumber in
  (fst (verifyPlateContent image expectedNumber s) = Ok true <->
     Substring expected observed
     \/ (Substring observed expected
         /\ 4 * List.length expected < 5 * List.length observed))
  /\ (expectedNumber = lit "ABC1234" -> answer_of response = lit "abc-1234" ->
        fst (verifyPlateContent image expectedNumber s) = Ok true)
  /\ (expectedNumber = lit "ABC1234" -> answer_of response = lit "AB1234" ->
        fst (verifyPlateContent image expectedNumber s) = Ok false).
Proof.
  intros Hreply Hlen observed expected.
  destruct (verifyPlateContent_run image expectedNumber s) as [b [s' [Hrun [Hb _]]]].
  rewrite Hreply in Hb. simpl in Hb. rewrite Hrun. simpl fst.
  pose proof (verdict_rule HU response expectedNumber Hlen) as Hrule.
  cbv zeta in Hrule. fold observed expected in Hrule. rewrite <- Hb in Hrule.
  split; [| split].
  - rewrite <- Hrule. split; [intros H; now injection H | intros ->; reflexivity].
  - intros Hexp Hans. f_equal. apply Hrule. left.
    unfold expected, observed. rewrite Hexp, Hans. now exists [], [].
  - intros Hexp Hans. f_equal. destruct b; [| reflexivity]. exfalso.
    assert (Hrule' : Substring expected observed
                     \/ Substring observed expected
                        /\ 4 * List.length expected < 5 * List.length observed)
      by now apply Hrule.
    unfold expected, observed in Hrule'. rewrite Hexp, Hans in Hrule'.
    rewrite <- !JSFacts.includes_spec in Hrule'.
    destruct Hrule' as [H | [H _]]; vm_compute in H; discriminate.
Qed.

End Verdicts.

(** ** Runs on the scripted runtime *)

Module Runs.

Import Script.

Lemma script_latin_upper : LatinUpper runtime.
Proof. intros s _. reflexivity. Defined.

Lemma verify_follows_containment_rule_witness :
  LatinUpper runtime
  /\ fst (@verifyPlateContent runtime render plate (start [says "abc-1234"])) = Ok true.
Proof.
  split; [exact script_latin_upper |].
  refine (proj1 (proj2 (@verify_follows_containment_rule runtime script_latin_upper
                          render plate (start [says "abc-1234"])
                          {| text := Some (lit "abc-1234"); candidates := None |} []
                          eq_refl _)) eq_refl eq_refl).
  vm_compute. reflexivity.
Defined.

(** Against C1 as stated: with [ABC1234] expected the answer [AB1234]
    is rejected; and with [ABCDE] expected the answer [ABCD], which
    [ABCDE] contains and whose length is exactly 80% of the expected
    length, is rejected although the stated rule accepts it. *)
Lemma verify_rule_counterexample :
  fst (@verifyPlateContent runtime render (lit "ABC1234") (start [says "AB1234"])) <> Ok true
  /\ ~ (fst (@verifyPlateContent runtime render (lit "ABCDE") (start [says "ABCD"])) = Ok true
        <-> Substring (normalized (lit "ABCDE")) (normalized (lit "ABCD"))
            \/ (Substring (normalized (lit "ABCD")) (normalized (lit "ABCDE"))
                /\ 4 * List.length (normalized (lit "ABCDE"))
                   <= 5 * List.length (normalized (lit "ABCD")))).
Proof.
  split.
  - vm_compute. discriminate.
  - intros [_ Hback].
    assert (Hrule : Substring (normalized (lit "ABCD")) (normalized (lit "ABCDE"))
                    /\ 4 * List.length (normalized (lit "ABCDE"))
                       <= 5 * List.length (normalized (lit "ABCD"))).
    { split; [exists [], (lit "E"); reflexivity | vm_compute; lia]. }
    specialize (Hback (or_intror Hrule)). vm_compute in Hback. discriminate.
Qed.

Lemma transparency_is_the_only_rejection_witness :
  preprocessImage (canvas glass (lit "data:image/jpeg;base64,BBBB")) photo
  = Throw (Error TRANSPARENT_MESSAGE)
  /\ preprocessImage headless photo = Ok photo.
Proof.
  split.
  - apply (proj1 (transparency_is_the_only_rejection _ _)).
    exists glass. split; [reflexivity |].
    exists 19. split; [split; [vm_compute; lia | exists 1; reflexivity] |].
    vm_compute. reflexivity.
  - apply (proj2 (proj2 (transparency_is_the_only_rejection _ _))).
    left. reflexivity.
Defined.

Lemma detected_plate_stops_before_generation_witness :
  fst (@generatePlate runtime photo plate country add true false (start plate_present))
  = Throw (Error PLATE_DETECTED_CONFIRMATION)
  /\ calls (snd (@generatePlate runtime photo plate country add true false
                   (start plate_present)))
     = [detection_request photo].
Proof.
  destruct (@detected_plate_stops_before_generation runtime photo plate country true
              (start plate_present) photo eq_refl eq_refl eq_refl)
    as [s' [Hrun [Hcalls _]]].
  rewrite Hrun. split; [reflexivity | exact Hcalls].
Defined.

Lemma verified_attempt_returns_at_once_witness :
  fst (@generatePlate runtime photo plate country replace true false (start second_try))
  = Ok (PNG_PREFIX ++ lit "P2")
  /\ List.length (calls (snd (@generatePlate runtime photo plate country replace
                                 true false (start second_try)))) = 4.
Proof.
  assert (Hrun : exists sv,
             @generatePlate runtime photo plate country replace true false
               (start second_try) = (Ok (PNG_PREFIX ++ lit "P2"), sv)
             /\ List.length (calls sv) = 4).
  { eexists. split.
    - refine (proj1 (@verified_attempt_returns_at_once runtime photo plate country
                       replace true false (start second_try) _ _ _ photo
                       (PNG_PREFIX ++ lit "P2") 2 _ _ _ _ _)).
      + vm_compute. reflexivity.
      + unfold MAX_RETRIES. lia.
      + intros j Hj. assert (j = 1) as -> by lia. vm_compute. reflexivity.
      + vm_compute. reflexivity.
      + vm_compute. reflexivity.
    - reflexivity. }
  destruct Hrun as [sv [Hrun Hlen]]. rewrite Hrun. split; [reflexivity | exact Hlen].
Defined.

Lemma last_image_is_the_fallback_witness :
  fst (@generatePlate runtime photo plate country replace true false (start never_verified))
  = Ok (PNG_PREFIX ++ lit "P4").
Proof.
  destruct (@last_image_is_the_fallback runtime photo plate country replace true false
              (start never_verified)
              (snd (@prepare runtime photo replace true false (start never_verified)))
              photo eq_refl) as [url [g [Hp Hret]]].
  - intros k Hk. unfold MAX_RETRIES in Hk.
    assert (k = 1 \/ k = 2 \/ k = 3 \/ k = 4) as [-> | [-> | [-> | ->]]] by lia;
      eexists _, _, _; split; vm_compute; reflexivity.
  - vm_compute in Hp. injection Hp as <- _. exact Hret.
Defined.

Lemma no_image_exhausts_retries_witness :
  fst (@generatePlate runtime photo plate country replace true false (start no_image))
  = Throw (Error (lit "overloaded")).
Proof.
  destruct (@no_image_exhausts_retries runtime photo plate country replace true false
              (start no_image)
              (snd (@prepare runtime photo replace true false (start no_image)))
              photo eq_refl) as [e [g [Hp Hret]]].
  - intros k Hk. unfold MAX_RETRIES in Hk.
    assert (k = 1 \/ k = 2 \/ k = 3 \/ k = 4) as [-> | [-> | [-> | ->]]] by lia;
      eexists _, _; vm_compute; reflexivity.
  - vm_compute in Hp. injection Hp as <- _. exact Hret.
Defined.

(** Against C5 as stated: every attempt captures an error whose message
    is the empty string, and the invocation throws the generic message,
    not the captured one. *)
Lemma generic_message_counterexample :
  fst (@produce_image runtime plate country replace true photo 4
         (@entering runtime plate country replace true photo 4
            (snd (@prepare runtime photo replace true false (start silent_failures)))))
  = Throw (Error [])
  /\ fst (@generatePlate runtime photo plate country replace true false
            (start silent_failures))
     = Throw (Error EXHAUSTED_MESSAGE)
  /\ Error EXHAUSTED_MESSAGE <> Error [].
Proof.
  split; [vm_compute; reflexivity | split; [vm_compute; reflexivity | discriminate]].
Qed.

Lemma returned_image_declares_png_witness :
  fst (@generatePlate runtime photo plate country add true true (start first_try))
  = Ok (PNG_PREFIX ++ lit "P1")
  /\ match_mime (PNG_PREFIX ++ lit "P1") = Some (lit "image/png").
Proof.
  split; [vm_compute; reflexivity |].
  refine (proj2 (@returned_image_declares_png runtime photo plate country add true true
                   (start first_try) _ _ _)).
  vm_compute. reflexivity.
Defined.

Lemma empty_expected_text_always_verifies_witness :
  normalized (lit "--") = []
  /\ fst (@generatePlate runtime photo (lit "--") country replace true false
            (start late_image))
     = Ok (PNG_PREFIX ++ lit "P2").
Proof.
  pose proof (@empty_expected_text_always_verifies runtime photo (lit "--") country
                replace true false script_latin_upper eq_refl) as [Hnorm [_ [Hgen _]]].
  split; [exact Hnorm |].
  refine (Hgen (start late_image) _ _ photo (PNG_PREFIX ++ lit "P2") 2
            {| text := Some (lit "XYZ999"); candidates := None |} [] _ _ _ _ _).
  - vm_compute. reflexivity.
  - unfold MAX_RETRIES. lia.
  - intros j Hj. assert (j = 1) as -> by lia. eexists _, _. vm_compute. reflexivity.
  - vm_compute. reflexivity.
  - vm_compute. reflexivity.
Defined.

(** Against C10 as stated: the plate text [--] has no letter or digit
    and the first attempt produces the image [P1], but the verification
    call for it fails; the invocation goes on and returns the image
    [P2] of the second attempt. *)
Lemma first_image_passed_over_counterexample :
  forallb (fun c => negb (is_alnum c)) (lit "--") = true
  /\ fst (@produce_image runtime (lit "--") country replace true photo 1
            (@entering runtime (lit "--") country replace true photo 1
               (snd (@prepare runtime photo replace true false (start unread_image)))))
     = Ok (PNG_PREFIX ++ lit "P1")
  /\ fst (@generatePlate runtime photo (lit "--") country replace true false
            (start unread_image))
     = Ok (PNG_PREFIX ++ lit "P2")
  /\ PNG_PREFIX ++ lit "P2" <> PNG_PREFIX ++ lit "P1".
Proof.
  split; [reflexivity |].
  split; [vm_compute; reflexivity |].
  split; [vm_compute; reflexivity |].
  intros H. vm_compute in H. discriminate.
Qed.

End Runs.

(** ** Further facts about an invocation *)

Section Invocation.

Context {R : Runtime}.
Variables (imageBase64 plateNumber plateCountry : jsstring).
Variable mode : Mode.
Variables (onProgress skipDetection : bool).

Notation produce := (produce_image plateNumber plateCountry mode onProgress).
Notation check := (check_image plateNumber onProgress).
Notation body := (attempt_body plateNumber plateCountry mode onProgress).
Notation loop := (retry_loop plateNumber plateCountry mode onProgress).
Notation at_entry := (entering plateNumber plateCountry mode onProgress).
Notation request := (generation_request plateNumber plateCountry mode).
Notation prep := (prepare imageBase64 mode onProgress skipDetection).
Notation generate :=
  (generatePlate imageBase64 plateNumber plateCountry mode onProgress skipDetection).

Lemma skipn_past (A : Type) (l more : list A) :
  skipn (List.length l) (l ++ more) = more.
Proof. induction l as [| a l IH]; simpl; auto. Qed.

(** What [notify] adds to the reports. *)
Lemma notify_reports (flag : bool) (status : jsstring) (s : State) :
  reports (snd (notify flag status s))
  = reports s ++ (if flag then [status] else []).
Proof. unfold notify. destruct flag; simpl; [reflexivity | now rewrite app_nil_r]. Qed.

(** X1: without a credential (absent or empty), an invocation throws
    the configuration error at once and leaves everything as it was: no
    request, no progress report. *)
Theorem missing_key_fails_first (s0 : State) :
  truthy (or_else apiKey []) = false ->
  generate s0 = (Throw (Error API_KEY_MESSAGE), s0).
Proof.
  intros Hkey. unfold generatePlate, prepare, bind. rewrite Hkey. reflexivity.
Qed.

(** X2: when preprocessing rejects, the invocation throws that very
    error; it has issued no request, and the only status reported is
    [Checking image...]. *)
Theorem rejected_image_stops_invocation (s0 : State) (e : JsError) :
  truthy (or_else apiKey []) = true ->
  preprocessImage dom imageBase64 = Throw e ->
  exists s',
    generate s0 = (Throw e, s')
    /\ calls s' = calls s0
    /\ remote s' = remote s0
    /\ progress_since s0 s' = if onProgress then [lit "Checking image..."] else [].
Proof.
  intros Hkey Hpre.
  destruct (notify_run onProgress (lit "Checking image...") s0)
    as [s1 [Hn [Hr [Hc _]]]].
  exists s1. split; [| split; [exact Hc | split; [exact Hr |]]].
  - unfold generatePlate, prepare. rewrite Hkey. simpl negb. cbv iota.
    unfold bind at 1 2. rewrite Hn. unfold bind at 1, await. rewrite Hpre.
    reflexivity.
  - unfold progress_since.
    replace s1 with (snd (notify onProgress (lit "Checking image...") s0))
      by now rewrite Hn.
    rewrite notify_reports. apply skipn_past.
Qed.

(** The requests of one attempt. *)
Lemma attempt_body_trace (processed : jsstring) (k : nat) (s : State) :
  exists new,
    calls (snd (body processed k s)) = calls s ++ new
    /\ attempt_trace (request processed) new.
Proof.
  destruct (produce_image_run plateNumber plateCountry mode onProgress processed k s)
    as [[url | e] [g [Hp [Hc _]]]].
  - destruct (check_image_run plateNumber onProgress url g) as [b [sv [Hchk [_ [Hcv _]]]]].
    exists [request processed; verification_request url].
    rewrite (attempt_body_checked _ _ _ _ _ _ _ _ _ _ _ Hp Hchk). simpl snd.
    split; [rewrite Hcv, Hc, <- app_assoc; reflexivity | right; now exists url].
  - destruct (attempt_body_no_image _ _ _ _ _ _ _ _ _ Hp) as [s' [Hb [_ [_ Hc']]]].
    exists [request processed]. rewrite Hb. split; [exact Hc' | now left].
Qed.

(** The requests of the loop: one group per attempt that ran. *)
Lemma retry_loop_trace (processed : jsstring) (l : list nat) (s : State) :
  exists attempts,
    calls (snd (loop processed l s)) = calls s ++ List.concat attempts
    /\ List.length attempts <= List.length l
    /\ Forall (attempt_trace (request processed)) attempts.
Proof.
  revert s. induction l as [| a l IH]; intros s.
  - exists []. simpl. rewrite app_nil_r. repeat split; auto.
  - destruct (attempt_body_trace processed a s) as [new [Hc Ht]].
    destruct (attempt_body_run plateNumber plateCountry mode onProgress processed a s)
      as [returned [s1 [_ [Hb _]]]].
    rewrite Hb in Hc. simpl snd in Hc.
    simpl. unfold bind. rewrite Hb. destruct returned as [url |].
    + exists [new]. simpl. rewrite app_nil_r.
      split; [exact Hc | split; [lia | now constructor]].
    + destruct (IH s1) as [attempts [Hc' [Hlen Hall]]].
      exists (new :: attempts). simpl.
      split; [rewrite Hc', Hc, <- app_assoc; reflexivity |].
      split; [lia | now constructor].
Qed.

(** The requests of the statements before the loop: the detection
    request for the preprocessed image, in add mode with detection not
    skipped, and nothing otherwise. *)
Lemma prepare_trace (s0 : State) :
  exists outcome s1 detect processed,
    prep s0 = (outcome, s1)
    /\ calls s1 = calls s0 ++ detect
    /\ (detect = []
        \/ (mode = add /\ skipDetection = false
            /\ detect = [detection_request processed]))
    /\ (forall p, outcome = Ok p -> p = processed).
Proof.
  unfold prepare.
  destruct (negb (truthy (or_else apiKey []))).
  { exists (Throw (Error API_KEY_MESSAGE)), s0, [], []. unfold throw.
    rewrite app_nil_r. repeat split; auto; discriminate. }
  destruct (notify_run onProgress (lit "Checking image...") s0)
    as [s1 [Hn1 [Hr1 [Hc1 _]]]].
  unfold bind at 1. rewrite Hn1. unfold bind at 1, await.
  destruct (preprocessImage dom imageBase64) as [processed | e].
  2: { exists (Throw e), s1, [], []. rewrite app_nil_r. repeat split; auto; discriminate. }
  assert (Hrest : forall s detect,
             calls s = calls s0 ++ detect ->
             exists outcome s2,
               (set_lastGeneratedImage [] ;; set_lastError None ;; ret processed) s
               = (outcome, s2)
               /\ calls s2 = calls s0 ++ detect
               /\ (forall p, outcome = Ok p -> p = processed)).
  { intros s detect Hc. eexists _, _. unfold_monad. simpl.
    split; [reflexivity |]. simpl. split; [exact Hc |]. intros p Hp. now injection Hp. }
  destruct mode eqn:Hmode, skipDetection eqn:Hskip; unfold bind at 1.
  1, 3, 4: unfold ret at 1;
    destruct (Hrest s1 [] ltac:(rewrite app_nil_r; exact Hc1)) as [o [s2 [Hrun [Hc2 Hp]]]];
    exists o, s2, [], processed; rewrite Hrun;
    (split; [reflexivity | split; [exact Hc2 | split; [now left | exact Hp]]]).
  destruct (notify_run onProgress (lit "Scanning for existing plates...") s1)
    as [s2 [Hn2 [Hr2 [Hc2 _]]]].
  destruct (checkForExistingPlate_run processed s2) as [b [s3 [Hd [_ [_ [Hc3 _]]]]]].
  unfold bind at 1. rewrite Hn2. unfold bind at 1. rewrite Hd.
  assert (Hlog : calls s3 = calls s0 ++ [detection_request processed])
    by (rewrite Hc3, Hc2, Hc1; reflexivity).
  destruct b.
  - exists (Throw (Error PLATE_DETECTED_CONFIRMATION)), s3,
      [detection_request processed], processed.
    unfold throw.
    split; [reflexivity | split; [exact Hlog | split; [right; auto | discriminate]]].
  - unfold ret at 1.
    destruct (Hrest s3 [detection_request processed] Hlog) as [o [s4 [Hrun [Hc4 Hp]]]].
    exists o, s4, [detection_request processed], processed. rewrite Hrun.
    split; [reflexivity | split; [exact Hc4 | split; [right; auto | exact Hp]]].
Qed.

Lemma attempt_trace_length (gen : Request) (attempts : list (list Request)) :
  Forall (attempt_trace gen) attempts ->
  List.length (List.concat attempts) <= 2 * List.length attempts.
Proof.
  induction 1 as [| a attempts Ha _ IH]; simpl; [lia |].
  rewrite length_app. destruct Ha as [-> | [url ->]]; simpl; lia.
Qed.

(** The requests of a whole invocation. *)
Lemma generatePlate_trace (s0 : State) :
  exists detect attempts processed,
    calls (snd (generate s0)) = calls s0 ++ detect ++ List.concat attempts
    /\ (detect = []
        \/ (mode = add /\ skipDetection = false
            /\ detect = [detection_request processed]))
    /\ List.length attempts <= MAX_RETRIES
    /\ Forall (attempt_trace (request processed)) attempts.
Proof.
  rewrite generatePlate_unfold.
  destruct (prepare_trace s0) as [outcome [s1 [detect [processed [Hprep [Hc1 [Hd Hp]]]]]]].
  rewrite Hprep. destruct outcome as [p | e].
  - rewrite (Hp p eq_refl) in *.
    destruct (retry_loop_trace processed (seq 1 MAX_RETRIES) s1) as [attempts [Hc2 [Hlen Hall]]].
    destruct (retry_loop_run plateNumber plateCountry mode onProgress processed
                (seq 1 MAX_RETRIES) s1) as [returned [s2 [_ [Hloop _]]]].
    rewrite Hloop in *. simpl snd in Hc2.
    exists detect, attempts, processed. rewrite length_seq in Hlen.
    split; [| auto].
    destruct returned; [simpl | rewrite conclude_state];
      rewrite Hc2, Hc1, <- app_assoc; reflexivity.
  - exists detect, [], processed. simpl. rewrite app_nil_r.
    repeat split; auto. unfold MAX_RETRIES. lia.
Qed.

(** X3: the requests of an invocation follow one pattern: at most one
    detection request, issued first and only in add mode with detection
    not skipped; then, for each of at most four attempts, the generation
    request, followed or not by one verification request.  So an
    invocation issues at most nine requests. *)
Theorem requests_follow_the_protocol (s0 : State) :
  exists detect attempts processed,
    calls (snd (generate s0)) = calls s0 ++ detect ++ List.concat attempts
    /\ (detect = []
        \/ (mode = add /\ skipDetection = false
            /\ detect = [detection_request processed]))
    /\ List.length attempts <= MAX_RETRIES
    /\ Forall (attempt_trace (request processed)) attempts
    /\ List.length (detect ++ List.concat attempts) <= 9.
Proof.
  destruct (generatePlate_trace s0) as [detect [attempts [processed [Hc [Hd [Hlen Hall]]]]]].
  exists detect, attempts, processed. repeat split; auto.
  rewrite length_app. pose proof (attempt_trace_length _ _ Hall) as Hsum.
  unfold MAX_RETRIES in Hlen.
  destruct Hd as [-> | [_ [_ ->]]]; simpl; lia.
Qed.

Lemma detection_calls_app (l1 l2 : list Request) :
  detection_calls (l1 ++ l2) = detection_calls l1 + detection_calls l2.
Proof. unfold detection_calls. now rewrite filter_app, length_app. Qed.

Lemma eqb_distinct (a b : jsstring) : a <> b -> JS.eqb a b = false.
Proof. intros H. unfold JS.eqb. destruct (list_eq_dec N.eq_dec a b); [contradiction | reflexivity]. Qed.

(** The instruction of a generation request starts with [Edit], the
    detection question with [Analyze]. *)
Lemma generation_is_not_detection (processed : jsstring) :
  JS.eqb (instruction (request processed)) DETECT_PROMPT = false.
Proof.
  apply eqb_distinct. intros H.
  apply (f_equal (fun l => hd 0%N l)) in H. vm_compute in H. discriminate.
Qed.

Lemma attempts_ask_no_detection (processed : jsstring) (attempts : list (list Request)) :
  Forall (attempt_trace (request processed)) attempts ->
  detection_calls (List.concat attempts) = 0.
Proof.
  induction 1 as [| a attempts Ha _ IH]; simpl; [reflexivity |].
  rewrite detection_calls_app, IH.
  unfold detection_calls.
  destruct Ha as [-> | [url ->]]; cbn [filter];
    rewrite generation_is_not_detection; reflexivity.
Qed.

(** X4: an invocation asks the detection question at most once, and
    never in replace mode or when detection is skipped. *)
Theorem detection_only_when_adding (s0 : State) :
  exists new,
    calls (snd (generate s0)) = calls s0 ++ new
    /\ detection_calls new <= 1
    /\ (mode = replace \/ skipDetection = true -> detection_calls new = 0).
Proof.
  destruct (generatePlate_trace s0) as [detect [attempts [processed [Hc [Hd [_ Hall]]]]]].
  exists (detect ++ List.concat attempts). split; [exact Hc |].
  rewrite detection_calls_app, (attempts_ask_no_detection _ _ Hall).
  destruct Hd as [-> | [Hmode [Hskip ->]]].
  - simpl. split; [lia | reflexivity].
  - change (detection_calls [detection_request processed]) with 1.
    split; [lia |]. intros [H | H]; [rewrite Hmode in H | rewrite Hskip in H]; discriminate.
Qed.

End Invocation.

(** ** What an invocation reports, returns and throws *)

Section Outcomes.

Context {R : Runtime}.
Variables (imageBase64 plateNumber plateCountry : jsstring).
Variable mode : Mode.
Variables (onProgress skipDetection : bool).

Notation produce := (produce_image plateNumber plateCountry mode onProgress).
Notation check := (check_image plateNumber onProgress).
Notation body := (attempt_body plateNumber plateCountry mode onProgress).
Notation loop := (retry_loop plateNumber plateCountry mode onProgress).
Notation at_entry := (entering plateNumber plateCountry mode onProgress).
Notation request := (generation_request plateNumber plateCountry mode).
Notation prep := (prepare imageBase64 mode onProgress skipDetection).
Notation generate :=
  (generatePlate imageBase64 plateNumber plateCountry mode onProgress skipDetection).

Ltac case_reply :=
  match goal with
  | |- context [generateContent ?q ?r] =>
      destruct (generateContent q r) as [[? | ?] ?]
  end.

Lemma produce_image_reports (processed : jsstring) (k : nat) (s : State) :
  reports (snd (produce processed k s))
  = reports s ++ (if onProgress then [attempt_status k] else []).
Proof.
  unfold produce_image, bind, notify, call, throw, set_lastGeneratedImage, ret.
  destruct onProgress; simpl; case_reply; simpl;
    try match goal with |- context [negb ?b] => destruct (negb b) end;
    simpl; rewrite ?app_nil_r; reflexivity.
Qed.

Lemma check_image_reports (url : jsstring) (g : State) :
  reports (snd (check url g))
  = reports g ++ (if onProgress then [lit "Verifying plate text..."] else []).
Proof.
  unfold check_image, verifyPlateContent, try_catch, bind, notify, call, ret.
  destruct onProgress; simpl; case_reply; simpl; rewrite ?app_nil_r; reflexivity.
Qed.

(** The reports of one attempt start with the status of the attempt. *)
Lemma attempt_body_reports (processed : jsstring) (k : nat) (s : State) :
  exists more,
    reports (snd (body processed k s))
    = reports s ++ (if onProgress then [attempt_status k] else []) ++ more.
Proof.
  pose proof (produce_image_reports processed k s) as Hp.
  unfold attempt_body, try_catch, bind.
  destruct (produce processed k s) as [[url | e] g]; simpl snd in Hp.
  - pose proof (check_image_reports url g) as Hc.
    destruct (check url g) as [[b | e] sv]; simpl snd in Hc.
    + exists (if onProgress then [lit "Verifying plate text..."] else []).
      destruct b; unfold ret; simpl snd; now rewrite Hc, Hp, <- app_assoc.
    + exists (if onProgress then [lit "Verifying plate text..."] else []).
      unfold set_lastError, ret. simpl. now rewrite Hc, Hp, <- app_assoc.
  - exists []. unfold set_lastError, ret. simpl. now rewrite Hp, app_nil_r.
Qed.

(** The reports only grow along the loop, and start with the status of
    its first attempt. *)
Lemma retry_loop_reports (processed : jsstring) (l : list nat) (s : State) :
  exists more,
    reports (snd (loop processed l s))
    = reports s
      ++ match l with
         | [] => []
         | k :: _ => if onProgress then [attempt_status k] else []
         end ++ more.
Proof.
  revert s. induction l as [| a l IH]; intros s.
  - exists []. simpl. now rewrite app_nil_r.
  - destruct (attempt_body_reports processed a s) as [more Hb].
    destruct (attempt_body_run plateNumber plateCountry mode onProgress processed a s)
      as [returned [s1 [_ [Hrun _]]]].
    rewrite Hrun in Hb. simpl snd in Hb.
    simpl. unfold bind. rewrite Hrun. destruct returned as [url |].
    + exists more. exact Hb.
    + destruct (IH s1) as [more' Hl]. rewrite Hl, Hb.
      eexists. rewrite <- !app_assoc. reflexivity.
Qed.

(** The reports of the statements before the loop, when they complete. *)
Lemma prepare_reports (s0 s1 : State) (processed : jsstring) :
  prep s0 = (Ok processed, s1) ->
  reports s1
  = reports s0
    ++ (if onProgress then [lit "Checking image..."] else [])
    ++ match mode, skipDetection with
       | add, false =>
           if onProgress then [lit "Scanning for existing plates..."] else []
       | _, _ => []
       end.
Proof.
  unfold prepare.
  destruct (negb (truthy (or_else apiKey []))); [discriminate |].
  pose proof (notify_reports onProgress (lit "Checking image...") s0) as Hn.
  unfold bind at 1.
  destruct (notify onProgress (lit "Checking image...") s0) as [[[] | e] s'] eqn:En;
    [| unfold notify in En; discriminate].
  simpl snd in Hn. unfold bind at 1, await.
  destruct (preprocessImage dom imageBase64) as [p | e]; [| discriminate].
  destruct mode, skipDetection; unfold bind at 1.
  1, 3, 4: unfold ret at 1; unfold_monad; simpl; intros H; injection H as _ <-;
    simpl; now rewrite Hn, app_nil_r.
  pose proof (notify_reports onProgress (lit "Scanning for existing plates...") s') as Hn2.
  unfold bind at 1.
  destruct (notify onProgress (lit "Scanning for existing plates...") s')
    as [[[] | e] s2] eqn:En2; [| unfold notify in En2; discriminate].
  simpl snd in Hn2.
  destruct (checkForExistingPlate_run p s2) as [b [s3 [Hd [_ [_ [_ [Hr3 _]]]]]]].
  unfold bind at 1. rewrite Hd. destruct b; [discriminate |].
  unfold ret at 1. unfold_monad. simpl. intros H. injection H as _ <-.
  simpl. now rewrite Hr3, Hn2, Hn, <- app_assoc.
Qed.

(** X6: with a progress callback, an invocation that gets past its
    preparation reports [Checking image...] first, then in add mode
    with detection not skipped [Scanning for existing plates...], then
    [Generating plate...]; whatever else it reports comes after. *)
Theorem progress_starts_in_order (s0 s1 : State) (processed : jsstring) :
  onProgress = true ->
  prep s0 = (Ok processed, s1) ->
  exists rest,
    progress_since s0 (snd (generate s0))
    = lit "Checking image..."
      :: match mode, skipDetection with
         | add, false => [lit "Scanning for existing plates..."]
         | _, _ => []
         end
      ++ lit "Generating plate..." :: rest.
Proof.
  intros Hon Hprep. pose proof (prepare_reports _ _ _ Hprep) as Hr1.
  rewrite generatePlate_unfold, Hprep.
  destruct (retry_loop_reports processed (seq 1 MAX_RETRIES) s1) as [more Hr2].
  destruct (retry_loop_run plateNumber plateCountry mode onProgress processed
              (seq 1 MAX_RETRIES) s1) as [returned [s2 [_ [Hloop _]]]].
  rewrite Hloop in *. simpl snd in Hr2.
  exists more. unfold progress_since.
  assert (Hfinal : reports (snd (match returned with
                                 | Some url => (Ok url, s2)
                                 | None => conclude s2
                                 end)) = reports s2)
    by (destruct returned; [reflexivity | now rewrite conclude_state]).
  rewrite Hfinal, Hr2, Hr1. rewrite Hon. simpl seq. cbv iota.
  rewrite <- !app_assoc. rewrite skipn_past.
  destruct mode, skipDetection; reflexivity.
Qed.

(** Once an attempt has stored an image, the rest of the loop and the
    statements after it return an image. *)
Lemma stored_image_is_returned (processed : jsstring) (l : list nat) (s : State) :
  truthy (lastGeneratedImage s) = true ->
  exists url,
    fst (match loop processed l s with
         | (Ok (Some u), s2) => (Ok u, s2)
         | (Ok None, s2) => conclude s2
         | (Throw e, s2) => (Throw e, s2)
         end) = Ok url.
Proof.
  intros Hstored.
  destruct (retry_loop_run plateNumber plateCountry mode onProgress processed l s)
    as [returned [s2 [_ [Hloop [_ [_ [Hlast _]]]]]]].
  rewrite Hloop. destruct returned as [u |]; [now exists u |].
  exists (lastGeneratedImage s2).
  assert (Hkept : truthy (lastGeneratedImage s2) = true).
  { destruct Hlast as [-> | [response [Ht ->]]]; assumption. }
  unfold conclude, get_lastGeneratedImage, bind. now rewrite Hkept.
Qed.

(** X7: an image is never thrown away: when some attempt that runs
    produces an image, the invocation returns an image, whatever the
    verifications and the later attempts do. *)
Theorem produced_image_is_never_discarded
        (s0 s1 g : State) (processed url : jsstring) (k : nat) :
  prep s0 = (Ok processed, s1) ->
  1 <= k <= MAX_RETRIES ->
  (forall j, 1 <= j < k ->
     fst (body processed j (at_entry processed j s1)) = Ok None) ->
  produce processed k (at_entry processed k s1) = (Ok url, g) ->
  exists returned, fst (generate s0) = Ok returned.
Proof.
  intros Hprep Hk Hbefore Hp.
  rewrite generatePlate_unfold, Hprep.
  assert (Hseq : seq 1 MAX_RETRIES = seq 1 (k - 1) ++ k :: seq (S k) (MAX_RETRIES - k)).
  { replace MAX_RETRIES with ((k - 1) + S (MAX_RETRIES - k)) at 1 by lia.
    rewrite seq_app. replace (1 + (k - 1)) with k by lia. reflexivity. }
  rewrite Hseq, retry_loop_app.
  rewrite (loop_falls_through plateNumber plateCountry mode onProgress)
    by (intros j Hj; apply Hbefore; lia).
  replace (S (k - 1)) with k by lia.
  destruct (produce_image_run plateNumber plateCountry mode onProgress processed k
              (at_entry processed k s1)) as [o [g' [Hrun [_ [_ Hl]]]]].
  rewrite Hp in Hrun. injection Hrun as <- <-. destruct Hl as [Htruthy [Hlast _]].
  destruct (check_image_run plateNumber onProgress url g) as [b [sv [Hc [_ [_ [Hlv _]]]]]].
  simpl. unfold bind at 1.
  rewrite (attempt_body_checked _ _ _ _ _ _ _ _ _ _ _ Hp Hc).
  destruct b; [now exists url |].
  apply stored_image_is_returned. now rewrite Hlv, Hlast.
Qed.

Lemma or_else_truthy (x : option jsstring) (d : jsstring) :
  truthy d = true -> truthy (or_else x d) = true.
Proof.
  intros Hd. unfold or_else. destruct x as [m |]; [| exact Hd].
  destruct (truthy m) eqn:Hm; assumption.
Qed.

(** The only error [preprocessImage] rejects with. *)
Lemma preprocess_rejection (b : Browser) (base64Str : jsstring) (e : JsError) :
  preprocessImage b base64Str = Throw e -> e = Error TRANSPARENT_MESSAGE.
Proof.
  unfold preprocessImage.
  repeat match goal with
         | |- context [if ?c then _ else _] => destruct c; try discriminate
         | |- context [match toDataURL ?x ?y with _ => _ end] =>
             destruct (toDataURL x y); try discriminate
         end.
  intros H. now injection H.
Qed.

(** The errors the statements before the loop can throw. *)
Lemma prepare_throws (s0 s1 : State) (e : JsError) :
  prep s0 = (Throw e, s1) ->
  e = Error API_KEY_MESSAGE \/ e = Error TRANSPARENT_MESSAGE
  \/ e = Error PLATE_DETECTED_CONFIRMATION.
Proof.
  unfold prepare.
  destruct (negb (truthy (or_else apiKey []))).
  { unfold throw. intros H. injection H as <- _. now left. }
  unfold bind at 1.
  destruct (notify onProgress (lit "Checking image...") s0) as [[[] | e0] s'] eqn:En;
    [| unfold notify in En; discriminate].
  unfold bind at 1, await.
  destruct (preprocessImage dom imageBase64) as [p | e0] eqn:Hpre.
  2: { intros H. injection H as <- _. right; left. now apply preprocess_rejection in Hpre. }
  destruct mode, skipDetection; unfold bind at 1.
  1, 3, 4: unfold ret at 1; unfold_monad; discriminate.
  unfold bind at 1.
  destruct (notify onProgress (lit "Scanning for existing plates...") s')
    as [[[] | e0] s2] eqn:En2; [| unfold notify in En2; discriminate].
  destruct (checkForExistingPlate_run p s2) as [b [s3 [Hd _]]].
  unfold bind at 1. rewrite Hd. destruct b.
  - unfold throw. intros H. injection H as <- _. right; now right.
  - unfold ret at 1. unfold_monad. discriminate.
Qed.

(** The shape of every error an invocation throws. *)
Lemma thrown_message (s0 s' : State) (e : JsError) :
  generate s0 = (Throw e, s') ->
  exists msg, message e = Some msg /\ truthy msg = true.
Proof.
  rewrite generatePlate_unfold.
  destruct (prep s0) as [[processed | e0] s1] eqn:Hprep.
  - destruct (retry_loop_run plateNumber plateCountry mode onProgress processed
                (seq 1 MAX_RETRIES) s1) as [returned [s2 [_ [Hloop _]]]].
    rewrite Hloop. destruct returned as [u |]; [discriminate |].
    unfold conclude, get_lastGeneratedImage, get_lastError, bind, ret, throw.
    destruct (truthy (lastGeneratedImage s2)); [discriminate |].
    intros H. injection H as <- _. eexists. split; [reflexivity |].
    now apply or_else_truthy.
  - intros H. injection H as <- _.
    destruct (prepare_throws _ _ _ Hprep) as [-> | [-> | ->]];
      eexists; split; reflexivity.
Qed.

End Outcomes.

(** ** A callback that is a function of the caller *)

Section Callbacks.

Context {R : Runtime}.
Variables (imageBase64 plateNumber plateCountry : jsstring).
Variable mode : Mode.
Variable skipDetection : bool.

Notation produce_with := (Callback.produce_image plateNumber plateCountry mode).
Notation check_with := (Callback.check_image plateNumber).
Notation body_with := (Callback.attempt_body plateNumber plateCountry mode).
Notation loop_with := (Callback.retry_loop plateNumber plateCountry mode).
Notation prep_with := (Callback.prepare imageBase64 mode).
Notation generate_with :=
  (Callback.generatePlate imageBase64 plateNumber plateCountry mode).
Notation request := (generation_request plateNumber plateCountry mode).

(** [generatePlate] with a flag is [Callback.generatePlate] at the
    callback the flag stands for. *)
Lemma generatePlate_of_flag (flag : bool) :
  generate_with (Callback.of_flag flag) skipDetection
  = generatePlate imageBase64 plateNumber plateCountry mode flag skipDetection.
Proof. destruct flag; reflexivity. Qed.

Lemma same_but_reports_refl (s : State) : same_but_reports s s.
Proof. repeat split. Qed.

Lemma indistinguishable_ret (A : Type) (a : A) : indistinguishable (ret a) (ret a).
Proof. intros s t Hst. split; [reflexivity | exact Hst]. Qed.

Lemma indistinguishable_throw (A : Type) (e : JsError) :
  indistinguishable (@throw R A e) (throw e).
Proof. intros s t Hst. split; [reflexivity | exact Hst]. Qed.

Lemma indistinguishable_bind (A B : Type) (m1 m2 : M A) (k1 k2 : A -> M B) :
  indistinguishable m1 m2 ->
  (forall a, indistinguishable (k1 a) (k2 a)) ->
  indistinguishable (bind m1 k1) (bind m2 k2).
Proof.
  intros Hm Hk s t Hst. destruct (Hm s t Hst) as [Hout Hstate]. unfold bind.
  destruct (m1 s) as [[a1 | e1] s1], (m2 t) as [[a2 | e2] t1];
    simpl in Hout, Hstate; try discriminate.
  - injection Hout as <-. exact (Hk a1 s1 t1 Hstate).
  - injection Hout as <-. split; [reflexivity | exact Hstate].
Qed.

Lemma indistinguishable_try_catch (A : Type) (m1 m2 : M A) (h1 h2 : JsError -> M A) :
  indistinguishable m1 m2 ->
  (forall e, indistinguishable (h1 e) (h2 e)) ->
  indistinguishable (try_catch m1 h1) (try_catch m2 h2).
Proof.
  intros Hm Hh s t Hst. destruct (Hm s t Hst) as [Hout Hstate]. unfold try_catch.
  destruct (m1 s) as [[a1 | e1] s1], (m2 t) as [[a2 | e2] t1];
    simpl in Hout, Hstate; try discriminate.
  - injection Hout as <-. split; [reflexivity | exact Hstate].
  - injection Hout as <-. exact (Hh e1 s1 t1 Hstate).
Qed.

Lemma indistinguishable_call (req : Request) : indistinguishable (call req) (call req).
Proof.
  intros s t [Hr [Hc [Hl He]]]. unfold call. rewrite Hr.
  destruct (generateContent req (remote t)) as [outcome remote'].
  split; [reflexivity |]. unfold same_but_reports. simpl.
  rewrite Hc, Hl, He. auto.
Qed.

(** A callback that returns and leaves the service alone cannot be told
    from no callback. *)
Lemma indistinguishable_notify (listener : Callback.Listener) (status : jsstring) :
  Callback.Quiet listener ->
  indistinguishable (Callback.notify (Some listener) status)
                    (Callback.notify None status).
Proof.
  intros Hquiet s t [Hr [Hc [Hl He]]]. unfold Callback.notify. rewrite Hquiet.
  split; [reflexivity |]. unfold same_but_reports. simpl. auto.
Qed.

Lemma indistinguishable_set_image (url : jsstring) :
  indistinguishable (set_lastGeneratedImage url) (set_lastGeneratedImage url).
Proof.
  intros s t [Hr [Hc [Hl He]]]. unfold set_lastGeneratedImage. split; [reflexivity |].
  unfold same_but_reports. simpl. auto.
Qed.

Lemma indistinguishable_set_error (e : option JsError) :
  indistinguishable (set_lastError e) (set_lastError e).
Proof.
  intros s t [Hr [Hc [Hl He]]]. unfold set_lastError. split; [reflexivity |].
  unfold same_but_reports. simpl. auto.
Qed.

Lemma indistinguishable_verify (url expected : jsstring) :
  indistinguishable (verifyPlateContent url expected) (verifyPlateContent url expected).
Proof.
  apply indistinguishable_try_catch.
  - apply indistinguishable_bind; [apply indistinguishable_call |].
    intros response. apply indistinguishable_ret.
  - intros e. apply indistinguishable_ret.
Qed.

Lemma indistinguishable_detect (image : jsstring) :
  indistinguishable (checkForExistingPlate image) (checkForExistingPlate image).
Proof.
  apply indistinguishable_try_catch.
  - apply indistinguishable_bind; [apply indistinguishable_call |].
    intros response. apply indistinguishable_ret.
  - intros e. apply indistinguishable_ret.
Qed.

Lemma indistinguishable_attempt (listener : Callback.Listener)
      (processed : jsstring) (k : nat) :
  Callback.Quiet listener ->
  indistinguishable (body_with (Some listener) processed k)
                    (body_with None processed k).
Proof.
  intros Hquiet. apply indistinguishable_try_catch.
  - apply indistinguishable_bind.
    + unfold Callback.produce_image.
      apply indistinguishable_bind; [now apply indistinguishable_notify | intros _].
      apply indistinguishable_bind; [apply indistinguishable_call | intros response].
      destruct (negb (truthy (extract_image response)));
        [apply indistinguishable_throw |].
      apply indistinguishable_bind; [apply indistinguishable_set_image | intros _].
      apply indistinguishable_ret.
    + intros url. apply indistinguishable_bind.
      * unfold Callback.check_image.
        apply indistinguishable_bind; [now apply indistinguishable_notify | intros _].
        apply indistinguishable_verify.
      * intros isPerfect. destruct isPerfect; apply indistinguishable_ret.
  - intros e.
    apply indistinguishable_bind; [apply indistinguishable_set_error | intros _].
    apply indistinguishable_ret.
Qed.

Lemma indistinguishable_loop (listener : Callback.Listener)
      (processed : jsstring) (l : list nat) :
  Callback.Quiet listener ->
  indistinguishable (loop_with (Some listener) processed l)
                    (loop_with None processed l).
Proof.
  intros Hquiet.
  induction l as [| a l IH]; simpl; [apply indistinguishable_ret |].
  apply indistinguishable_bind; [now apply indistinguishable_attempt |].
  intros [url |]; [apply indistinguishable_ret | exact IH].
Qed.

Lemma indistinguishable_prepare (listener : Callback.Listener) :
  Callback.Quiet listener ->
  indistinguishable (prep_with (Some listener) skipDetection)
                    (prep_with None skipDetection).
Proof.
  intros Hquiet. unfold Callback.prepare.
  destruct (negb (truthy (or_else apiKey []))); [apply indistinguishable_throw |].
  apply indistinguishable_bind; [now apply indistinguishable_notify | intros _].
  apply indistinguishable_bind.
  { intros s t Hst. unfold await. split; [reflexivity | exact Hst]. }
  intros processed. apply indistinguishable_bind.
  - destruct mode, skipDetection; try apply indistinguishable_ret.
    apply indistinguishable_bind; [now apply indistinguishable_notify | intros _].
    apply indistinguishable_bind; [apply indistinguishable_detect | intros hasPlate].
    destruct hasPlate; [apply indistinguishable_throw | apply indistinguishable_ret].
  - intros _.
    apply indistinguishable_bind; [apply indistinguishable_set_image | intros _].
    apply indistinguishable_bind; [apply indistinguishable_set_error | intros _].
    apply indistinguishable_ret.
Qed.

Lemma indistinguishable_conclude : indistinguishable (@conclude R) conclude.
Proof.
  intros s t [Hr [Hc [Hl He]]].
  unfold conclude, get_lastGeneratedImage, get_lastError, bind, ret, throw.
  rewrite Hl. destruct (truthy (lastGeneratedImage t)); simpl; rewrite ?He;
    (split; [reflexivity | repeat split; auto]).
Qed.

(** X5: a callback that returns on every status and leaves the remote
    service alone is only an observer: from the same state, the
    invocation with it and the invocation without a callback return or
    throw the same value, issue the same requests and leave the remote
    in the same state. *)
Theorem returning_callback_is_only_observed
        (listener : Callback.Listener) (s0 : State) :
  Callback.Quiet listener ->
  fst (generate_with (Some listener) skipDetection s0)
  = fst (generate_with None skipDetection s0)
  /\ calls (snd (generate_with (Some listener) skipDetection s0))
     = calls (snd (generate_with None skipDetection s0))
  /\ remote (snd (generate_with (Some listener) skipDetection s0))
     = remote (snd (generate_with None skipDetection s0)).
Proof.
  intros Hquiet.
  assert (H : indistinguishable (generate_with (Some listener) skipDetection)
                                (generate_with None skipDetection)).
  { unfold Callback.generatePlate.
    apply indistinguishable_bind; [now apply indistinguishable_prepare | intros processed].
    apply indistinguishable_bind; [now apply indistinguishable_loop | intros returned].
    destruct returned; [apply indistinguishable_ret | apply indistinguishable_conclude]. }
  destruct (H s0 s0 (same_but_reports_refl s0)) as [Hfst [Hr [Hc _]]].
  auto.
Qed.

(** X25: a throw of the callback before the loop leaves the function:
    with a credential, when the callback throws on [Checking image...],
    or returns there and throws on [Scanning for existing plates...]
    (add mode, detection not skipped, the image accepted), the
    invocation throws that very value and has issued no request. *)
Theorem callback_failure_before_the_loop_escapes
        (listener : Callback.Listener) (s0 : State) (e : JsError) :
  truthy (or_else apiKey []) = true ->
  (exists r', listener (reports s0) (lit "Checking image...") (remote s0) = (Throw e, r'))
  \/ (mode = add /\ skipDetection = false
      /\ exists r1 r' processed,
           listener (reports s0) (lit "Checking image...") (remote s0) = (Ok tt, r1)
           /\ preprocessImage dom imageBase64 = Ok processed
           /\ listener (reports s0 ++ [lit "Checking image..."])
                (lit "Scanning for existing plates...") r1 = (Throw e, r')) ->
  exists s',
    generate_with (Some listener) skipDetection s0 = (Throw e, s')
    /\ calls s' = calls s0.
Proof.
  intros Hkey Hthrows.
  unfold Callback.generatePlate, Callback.prepare. rewrite Hkey. simpl negb. cbv iota.
  destruct Hthrows as [[r' Hfirst] | [Hmode [Hskip [r1 [r' [processed [Hfirst [Hpre Hsecond]]]]]]]].
  - unfold bind at 1 2 3. unfold Callback.notify at 1. rewrite Hfirst.
    eexists. split; reflexivity.
  - rewrite Hmode, Hskip.
    unfold bind at 1 2 3. unfold Callback.notify at 1. rewrite Hfirst.
    unfold bind at 1, await. rewrite Hpre.
    unfold bind at 1 2. unfold Callback.notify at 1. cbn [reports remote].
    rewrite Hsecond. eexists. split; reflexivity.
Qed.

(** An attempt that produces an image has stored it. *)
Lemma produce_with_stores (onProgress : option Callback.Listener)
      (processed url : jsstring) (k : nat) (s g : State) :
  produce_with onProgress processed k s = (Ok url, g) ->
  lastGeneratedImage g = url.
Proof.
  unfold Callback.produce_image. unfold bind at 1.
  destruct (Callback.notify onProgress (attempt_status k) s) as [[[] | e] s1];
    [| discriminate].
  unfold bind at 1.
  destruct (call_run (request processed) s1) as [s2 [Hcall _]]. rewrite Hcall.
  destruct (fst (generateContent (request processed) (remote s1))) as [response | e];
    [| discriminate].
  destruct (negb (truthy (extract_image response))); [discriminate |].
  unfold bind, set_lastGeneratedImage, ret. intros H. injection H as <- <-. reflexivity.
Qed.

(** X26: a throw of the callback inside an attempt is caught with the
    errors of that attempt.  When it throws on the status of the attempt,
    the iteration ends without a generation request, with the thrown
    value as the last error; when it throws on [Verifying plate
    text...], the image just produced stays stored, no verification
    request is issued and the thrown value is the last error.  Either
    way the loop goes on. *)
Theorem callback_failure_in_an_attempt_is_captured
        (listener : Callback.Listener) (processed : jsstring) (k : nat)
        (s : State) (e : JsError) (r' : Remote) :
  (listener (reports s) (attempt_status k) (remote s) = (Throw e, r') ->
   exists s',
     body_with (Some listener) processed k s = (Ok None, s')
     /\ lastError s' = Some e
     /\ lastGeneratedImage s' = lastGeneratedImage s
     /\ calls s' = calls s)
  /\ (forall (url : jsstring) (g : State),
        produce_with (Some listener) processed k s = (Ok url, g) ->
        listener (reports g) (lit "Verifying plate text...") (remote g) = (Throw e, r') ->
        exists s',
          body_with (Some listener) processed k s = (Ok None, s')
          /\ lastError s' = Some e
          /\ lastGeneratedImage s' = url
          /\ calls s' = calls g).
Proof.
  split.
  - intros Hthrow.
    unfold Callback.attempt_body, try_catch, Callback.produce_image.
    unfold bind at 1 2. unfold Callback.notify at 1. rewrite Hthrow.
    eexists. split; [reflexivity |]. simpl. auto.
  - intros url g Hp Hthrow. pose proof (produce_with_stores _ _ _ _ _ _ Hp) as Hstored.
    unfold Callback.attempt_body, try_catch. unfold bind at 1. rewrite Hp.
    unfold Callback.check_image. unfold bind at 1 2. unfold Callback.notify at 1.
    rewrite Hthrow.
    eexists. split; [reflexivity |]. simpl. auto.
Qed.

Variable onProgress : option Callback.Listener.






End Callbacks.

(** ** Readings, data URIs and fallbacks *)

Section Readings.

Context {R : Runtime}.

Lemma round53_nonneg (p : Z) : (0 <= p -> 0 <= Float.round53 p)%Z.
Proof.
  intros Hp. unfold Float.round53.
  destruct (Z.leb_spec (Z.log2 p) 52) as [_ | Hk]; [exact Hp |].
  assert (Hpow : (0 < 2 ^ (Z.log2 p - 52))%Z) by (apply Z.pow_pos_nonneg; lia).
  assert (Hq : (0 <= p / 2 ^ (Z.log2 p - 52))%Z) by (apply Z.div_pos; lia).
  destruct (FloatFacts.rounded_up_cases (p / 2 ^ (Z.log2 p - 52))
              (p mod 2 ^ (Z.log2 p - 52)) (2 ^ (Z.log2 p - 52 - 1)))
    as [Hq' | [Hq' _]]; cbv zeta in Hq'; rewrite Hq'; apply Z.mul_nonneg_nonneg; lia.
Qed.

(** Zero is never more than four fifths of a length. *)
Lemma nothing_exceeds_four_fifths (n : nat) :
  Float.gt_times_0_8 0 (Z.of_nat n) = false.
Proof.
  unfold Float.gt_times_0_8, Float.times_0_8. apply Z.ltb_ge. simpl Z.mul at 1.
  apply round53_nonneg. unfold Float.mantissa_0_8. lia.
Qed.

(** The text [verifyPlateContent] compares is the normalised answer. *)
Lemma ocr_text_normalized (HU : LatinUpper R) (response : Response) :
  match text response with
  | Some t => if truthy t then cleanText t else []
  | None => []
  end = normalized (answer_of response).
Proof.
  unfold answer_of. destruct (text response) as [t |]; [| reflexivity].
  destruct t; [reflexivity |]. simpl truthy. cbv iota.
  apply (cleanText_normalized HU).
Qed.

Lemma includes_refl (s : jsstring) : includes s s = true.
Proof. apply JSFacts.includes_spec. exists [], []. now rewrite app_nil_r. Qed.

(** X9: a reply whose text has no letter or digit (or no text at all)
    never verifies a plate number that has some. *)
Theorem empty_reading_never_verifies
        (HU : LatinUpper R) (image expectedNumber : jsstring)
        (s : State) (response : Response) (remote' : Remote) :
  generateContent (verification_request image) (remote s) = (Ok response, remote') ->
  normalized (answer_of response) = [] ->
  normalized expectedNumber <> [] ->
  fst (verifyPlateContent image expectedNumber s) = Ok false.
Proof.
  intros Hreply Hempty Hsome.
  destruct (verifyPlateContent_run image expectedNumber s) as [b [s' [Hrun [Hb _]]]].
  rewrite Hrun, Hb, Hreply. simpl. f_equal. unfold verdict.
  rewrite (ocr_text_normalized HU), Hempty, (cleanText_normalized HU).
  destruct (normalized expectedNumber) as [| c rest]; [contradiction |].
  cbn [includes startsWith List.length]. rewrite nothing_exceeds_four_fifths.
  now rewrite andb_false_r.
Qed.

(** X10: verification looks at letters and digits only, whatever their
    case: a reply whose text normalises to the same string as the plate
    number verifies. *)
Theorem same_characters_verify
        (HU : LatinUpper R) (image expectedNumber : jsstring)
        (s : State) (response : Response) (remote' : Remote) :
  generateContent (verification_request image) (remote s) = (Ok response, remote') ->
  normalized (answer_of response) = normalized expectedNumber ->
  fst (verifyPlateContent image expectedNumber s) = Ok true.
Proof.
  intros Hreply Hsame.
  destruct (verifyPlateContent_run image expectedNumber s) as [b [s' [Hrun [Hb _]]]].
  rewrite Hrun, Hb, Hreply. simpl. f_equal. unfold verdict.
  rewrite (ocr_text_normalized HU), Hsame, (cleanText_normalized HU).
  now rewrite includes_refl.
Qed.

(** X11: [verifyPlateContent] never throws: it issues exactly one
    request, to the reading model, and returns false when that call
    fails. *)
Theorem verifier_never_throws (image expectedNumber : jsstring) (s : State) :
  exists b s',
    verifyPlateContent image expectedNumber s = (Ok b, s')
    /\ calls s' = calls s ++ [verification_request image]
    /\ model (verification_request image) = FLASH
    /\ (forall e remote',
          generateContent (verification_request image) (remote s) = (Throw e, remote') ->
          b = false).
Proof.
  destruct (verifyPlateContent_run image expectedNumber s)
    as [b [s' [Hrun [Hb [_ [Hc _]]]]]].
  exists b, s'. repeat split; auto.
  intros e remote' Hfail. now rewrite Hfail in Hb.
Qed.

End Readings.

(** ** Data URIs and the requests built from them *)

Section DataURIs.

Lemma until_semicolon_run (m rest : jsstring) :
  ~ In 59%N m -> until_semicolon (m ++ 59%N :: rest) = Some m.
Proof.
  induction m as [| c m IH]; intros Hm; simpl; [reflexivity |].
  destruct (N.eqb_spec c 59) as [-> | _]; [exfalso; apply Hm; now left |].
  rewrite IH; [reflexivity |]. intros H. apply Hm. now right.
Qed.

Lemma split_whole (sep : N) (s : jsstring) : ~ In sep s -> split sep s = [s].
Proof.
  induction s as [| c s IH]; intros Hs; simpl; [reflexivity |].
  destruct (N.eqb_spec c sep) as [-> | _]; [exfalso; apply Hs; now left |].
  rewrite IH; [reflexivity |]. intros H. apply Hs. now right.
Qed.

Lemma split_at_first (sep : N) (a b : jsstring) :
  ~ In sep a -> split sep (a ++ sep :: b) = a :: split sep b.
Proof.
  induction a as [| c a IH]; intros Ha; simpl.
  - now rewrite N.eqb_refl.
  - destruct (N.eqb_spec c sep) as [-> | _]; [exfalso; apply Ha; now left |].
    rewrite IH; [reflexivity |]. intros H. apply Ha. now right.
Qed.

Lemma split_has_head (sep : N) (s : jsstring) : split sep s <> [].
Proof.
  destruct s as [| c s]; simpl; [discriminate |].
  destruct (c =? sep)%N; [discriminate |]. destruct (split sep s); discriminate.
Qed.

(** X12: the payload and the media type of a well-formed data URI are
    recovered as they went in, so the detection request built from
    [data:<mime>;base64,<payload>] carries exactly [payload] tagged
    [mime]; the URI is well formed when [mime] is not empty and neither
    part holds the separator that ends it. *)
Theorem data_uri_parts_are_recovered (mime payload : jsstring) :
  mime <> [] -> ~ In 59%N mime -> ~ In 44%N mime -> ~ In 44%N payload ->
  payload_of (data_uri mime payload) = Some payload
  /\ match_mime (data_uri mime payload) = Some mime
  /\ detection_request (data_uri mime payload)
     = {| model := FLASH; inline_data := Some payload;
          inline_mimeType := mime; instruction := DETECT_PROMPT |}.
Proof.
  intros Hmime Hsemi Hcomma Hpayload.
  assert (Hp : payload_of (data_uri mime payload) = Some payload).
  { unfold payload_of, data_uri.
    replace (lit "data:" ++ mime ++ lit ";base64," ++ payload)
      with ((lit "data:" ++ mime ++ lit ";base64") ++ 44%N :: payload)
      by (rewrite <- !app_assoc; reflexivity).
    rewrite split_at_first, (split_whole _ _ Hpayload); [reflexivity |].
    rewrite !in_app_iff. intros [H | [H | H]].
    - vm_compute in H. intuition discriminate.
    - contradiction.
    - vm_compute in H. intuition discriminate. }
  assert (Hm : match_mime (data_uri mime payload) = Some mime).
  { unfold data_uri. destruct mime as [| c mime]; [contradiction |].
    assert (Hhere : match_mime_here (lit "data:" ++ (c :: mime) ++ lit ";base64," ++ payload)
                    = Some (c :: mime)).
    { unfold match_mime_here.
      change (strip_prefix (lit "data:")
                (lit "data:" ++ (c :: mime) ++ lit ";base64," ++ payload))
        with (Some ((c :: mime) ++ 59%N :: lit "base64," ++ payload)).
      cbv iota beta.
      rewrite (until_semicolon_run (c :: mime) (lit "base64," ++ payload) Hsemi).
      reflexivity. }
    change (lit "data:" ++ (c :: mime) ++ lit ";base64," ++ payload)
      with (100%N :: (lit "ata:" ++ (c :: mime) ++ lit ";base64," ++ payload)) in *.
    cbn [match_mime]. now rewrite Hhere. }
  split; [exact Hp | split; [exact Hm |]].
  unfold detection_request. rewrite Hp, Hm. simpl or_else.
  destruct mime; [contradiction | reflexivity].
Qed.

(** X13: the payload of a request is missing exactly when the image
    string holds no comma. *)
Theorem payload_needs_a_comma (imageBase64 : jsstring) :
  inline_data (detection_request imageBase64) = None <-> ~ In 44%N imageBase64.
Proof.
  simpl. unfold payload_of. split.
  - intros Hnone Hin. apply in_split in Hin. destruct Hin as [a [b ->]].
    assert (Hfirst : exists a' b', a ++ 44%N :: b = a' ++ 44%N :: b' /\ ~ In 44%N a').
    { clear Hnone. induction a as [| c a IH].
      - exists [], b. split; [reflexivity | intros []].
      - destruct (N.eq_dec c 44) as [-> | Hc].
        + exists [], (a ++ 44%N :: b). split; [reflexivity | intros []].
        + destruct IH as [a' [b' [Heq Ha']]]. exists (c :: a'), b'.
          split; [simpl; now rewrite Heq |]. intros [H | H]; [congruence | contradiction]. }
    destruct Hfirst as [a' [b' [Heq Ha']]]. rewrite Heq, split_at_first in Hnone by exact Ha'.
    pose proof (split_has_head 44 b') as Hhead.
    destruct (split 44 b'); [contradiction | discriminate].
  - intros Hnone. now rewrite split_whole.
Qed.

(** X14: [preprocessImage] falls back to its input whenever the image
    does not load, no 2d context is available or drawing throws; it
    never rejects when the pixel buffer cannot be read; and whenever it
    resolves, it resolves to its input or to the canvas's encoding. *)
Theorem preprocess_falls_back_to_input (b : Browser) (base64Str : jsstring) :
  (image_loads b base64Str = false \/ context_2d b base64Str = false
   \/ drawImage_ok b base64Str = false ->
   preprocessImage b base64Str = Ok base64Str)
  /\ (getImageData b base64Str = None ->
      exists out, preprocessImage b base64Str = Ok out)
  /\ (forall out, preprocessImage b base64Str = Ok out ->
        out = base64Str \/ toDataURL b base64Str = Some out).
Proof.
  unfold preprocessImage.
  destruct (window_defined b), (document_defined b), (image_loads b base64Str),
    (context_2d b base64Str), (drawImage_ok b base64Str); simpl;
    try (split; [reflexivity | split; [intros _; now eexists |
                                       intros out H; injection H as <-; now left]]).
  split; [intros [H | [H | H]]; discriminate |].
  destruct (getImageData b base64Str) as [data |].
  - split; [discriminate |]. intros out.
    destruct (has_transparent_sample data 3); [discriminate |].
    destruct (toDataURL b base64Str); intros H; injection H as <-; auto.
  - split.
    + intros _. destruct (toDataURL b base64Str); now eexists.
    + intros out. destruct (toDataURL b base64Str); intros H; injection H as <-; auto.
Qed.

End DataURIs.

(** ** Normalisation *)

Section Normalisation.

Context {R : Runtime}.

Lemma upper_latin_range (c : N) :
  is_alnum c = true -> is_upper_alnum (upper_latin c) = true.
Proof.
  unfold is_alnum, is_upper_alnum, upper_latin. intros H.
  destruct ((97 <=? c) && (c <=? 122))%N eqn:Hlow.
  - apply andb_true_iff in Hlow. destruct Hlow as [H1 H2].
    apply N.leb_le in H1, H2.
    assert (H48 : (48 <=? c - 32)%N = true) by (apply N.leb_le; lia).
    assert (H57 : (c - 32 <=? 57)%N = false) by (apply N.leb_gt; lia).
    assert (H65 : (65 <=? c - 32)%N = true) by (apply N.leb_le; lia).
    assert (H90 : (c - 32 <=? 90)%N = true) by (apply N.leb_le; lia).
    now rewrite H48, H57, H65, H90.
  - now rewrite orb_false_r in H.
Qed.

Lemma upper_alnum_is_alnum (c : N) : is_upper_alnum c = true -> is_alnum c = true.
Proof. unfold is_upper_alnum, is_alnum. intros ->. reflexivity. Qed.

Lemma upper_latin_fixes_upper (c : N) :
  is_upper_alnum c = true -> upper_latin c = c.
Proof.
  unfold is_upper_alnum, upper_latin. intros H.
  destruct ((97 <=? c) && (c <=? 122))%N eqn:Hlow; [| reflexivity].
  apply andb_true_iff in Hlow. destruct Hlow as [H1 _]. apply N.leb_le in H1.
  assert (H57 : (c <=? 57)%N = false) by (apply N.leb_gt; lia).
  assert (H90 : (c <=? 90)%N = false) by (apply N.leb_gt; lia).
  rewrite H57, H90, !andb_false_r in H. discriminate.
Qed.

Lemma normalized_alphabet (t : jsstring) :
  forallb is_upper_alnum (normalized t) = true.
Proof.
  unfold normalized. induction t as [| c t IH]; simpl; [reflexivity |].
  destruct (is_alnum c) eqn:Hc; [| exact IH]. simpl.
  now rewrite (upper_latin_range c Hc), IH.
Qed.

Lemma normalized_fixed (l : jsstring) :
  forallb is_upper_alnum l = true -> normalized l = l.
Proof.
  unfold normalized. induction l as [| c l IH]; simpl; [reflexivity |].
  rewrite andb_true_iff. intros [Hc Hl].
  rewrite (upper_alnum_is_alnum c Hc). simpl.
  now rewrite (upper_latin_fixes_upper c Hc), IH.
Qed.

(** X15: what [cleanText] returns holds upper-case letters and digits
    only, and cleaning it again changes nothing. *)
Theorem cleanText_is_a_normal_form (HU : LatinUpper R) (text : jsstring) :
  forallb is_upper_alnum (cleanText text) = true
  /\ cleanText (cleanText text) = cleanText text.
Proof.
  rewrite !(cleanText_normalized HU). split; [apply normalized_alphabet |].
  apply normalized_fixed, normalized_alphabet.
Qed.

End Normalisation.

(** ** The page: what a run of [handleGenerate] leaves behind *)

Section Page.

Context {R : Runtime}.

(** The progress callback touches [statusMessage] only. *)
Lemma report_all_keeps (statuses : list jsstring) (ui : App.UI) :
  App.showConfirmation (App.report_all statuses ui) = App.showConfirmation ui
  /\ App.originalImage (App.state (App.report_all statuses ui))
     = App.originalImage (App.state ui)
  /\ App.generatedImage (App.state (App.report_all statuses ui))
     = App.generatedImage (App.state ui)
  /\ App.plateNumber (App.state (App.report_all statuses ui))
     = App.plateNumber (App.state ui)
  /\ App.plateCountry (App.state (App.report_all statuses ui))
     = App.plateCountry (App.state ui)
  /\ App.mode (App.state (App.report_all statuses ui)) = App.mode (App.state ui)
  /\ App.isGenerating (App.state (App.report_all statuses ui))
     = App.isGenerating (App.state ui)
  /\ App.error (App.state (App.report_all statuses ui)) = App.error (App.state ui).
Proof.
  unfold App.report_all. revert ui.
  induction statuses as [| status statuses IH]; intros ui; simpl; [repeat split |].
  destruct (IH (App.setState (App.reporting status) ui))
    as [H1 [H2 [H3 [H4 [H5 [H6 [H7 H8]]]]]]].
  rewrite H1, H2, H3, H4, H5, H6, H7, H8. repeat split.
Qed.

(** A run that reaches [generatePlate]. *)
Lemma handleGenerate_reaches (skipDetection : bool) (ui : App.UI) (s : State)
      (image : jsstring) :
  App.originalImage (App.state ui) = Some image ->
  truthy image = true ->
  truthy (App.plateNumber (App.state ui)) = true ->
  truthy (App.plateCountry (App.state ui)) = true ->
  App.handleGenerate skipDetection ui s
  = let run := generatePlate image (App.plateNumber (App.state ui))
                 (App.plateCountry (App.state ui)) (App.mode (App.state ui))
                 true skipDetection s in
    let ui2 := App.report_all (progress_since s (snd run)) (App.setState App.starting ui) in
    (match fst run with
     | Ok url => App.setState (App.completed url) ui2
     | Throw err => App.on_failure err ui2
     end, snd run).
Proof.
  intros Himage Htruthy Hnumber Hcountry. unfold App.handleGenerate.
  rewrite Himage, Htruthy, Hnumber, Hcountry. simpl negb. cbv iota. simpl orb. cbv iota.
  destruct (generatePlate image _ _ _ true skipDetection s) as [[url | err] s'];
    reflexivity.
Qed.

(** X16: a run with no photo, no plate number or no country sends
    nothing to the service.  Without a photo the page is left as it is;
    with one, the page shows [Please fill in all text fields.] and is
    not generating. *)
Theorem incomplete_form_sends_nothing (skipDetection : bool) (ui : App.UI) (s : State) :
  truthy (or_else (App.originalImage (App.state ui)) []) = false
  \/ truthy (App.plateNumber (App.state ui)) = false
  \/ truthy (App.plateCountry (App.state ui)) = false ->
  snd (App.handleGenerate skipDetection ui s) = s
  /\ (truthy (or_else (App.originalImage (App.state ui)) []) = false ->
      fst (App.handleGenerate skipDetection ui s) = ui)
  /\ (truthy (or_else (App.originalImage (App.state ui)) []) = true ->
      App.error (App.state (fst (App.handleGenerate skipDetection ui s)))
      = Some App.FILL_IN_MESSAGE
      /\ App.isGenerating (App.state (fst (App.handleGenerate skipDetection ui s)))
         = false).
Proof.
  intros Hmissing. unfold App.handleGenerate.
  destruct (App.originalImage (App.state ui)) as [image |].
  2: { split; [reflexivity | split; [reflexivity | discriminate]]. }
  assert (Hshown : truthy (or_else (Some image) []) = truthy image)
    by (destruct image; reflexivity).
  rewrite Hshown in *.
  destruct (truthy image) eqn:Himage; simpl negb; cbv iota.
  2: { split; [reflexivity | split; [reflexivity | discriminate]]. }
  assert (Htext : negb (truthy (App.plateNumber (App.state ui)))
                  || negb (truthy (App.plateCountry (App.state ui))) = true).
  { destruct Hmissing as [H | [H | H]]; [discriminate | |]; rewrite H; simpl;
      [reflexivity | apply orb_true_r]. }
  rewrite Htext. split; [reflexivity | split; [discriminate | intros _; split; reflexivity]].
Qed.

(** X17: every run with a photo ends with the page not generating, and
    no run changes the photo, the plate number, the country or the
    mode. *)
Theorem run_ends_settled (skipDetection : bool) (ui : App.UI) (s : State) :
  (truthy (or_else (App.originalImage (App.state ui)) []) = true ->
   App.isGenerating (App.state (fst (App.handleGenerate skipDetection ui s))) = false)
  /\ App.originalImage (App.state (fst (App.handleGenerate skipDetection ui s)))
     = App.originalImage (App.state ui)
  /\ App.plateNumber (App.state (fst (App.handleGenerate skipDetection ui s)))
     = App.plateNumber (App.state ui)
  /\ App.plateCountry (App.state (fst (App.handleGenerate skipDetection ui s)))
     = App.plateCountry (App.state ui)
  /\ App.mode (App.state (fst (App.handleGenerate skipDetection ui s)))
     = App.mode (App.state ui).
Proof.
  unfold App.handleGenerate.
  destruct (App.originalImage (App.state ui)) as [image |] eqn:Himage.
  2: { simpl fst. rewrite ?Himage. split; [discriminate | repeat split]. }
  assert (Hshown : truthy (or_else (Some image) []) = truthy image)
    by (destruct image; reflexivity).
  rewrite Hshown.
  destruct (truthy image) eqn:Htruthy; simpl negb; cbv iota.
  2: { simpl fst. rewrite ?Himage. split; [discriminate | repeat split]. }
  destruct (negb (truthy (App.plateNumber (App.state ui)))
            || negb (truthy (App.plateCountry (App.state ui)))).
  { simpl. rewrite ?Himage. repeat split. }
  destruct (generatePlate image _ _ _ true skipDetection s) as [result s'].
  destruct (report_all_keeps (progress_since s s') (App.setState App.starting ui))
    as [_ [H2 [_ [H4 [H5 [H6 _]]]]]].
  destruct result as [url | err]; [| unfold App.on_failure; destruct (App.asks_confirmation err)];
    simpl; rewrite ?H2, ?H4, ?H5, ?H6; simpl; rewrite ?Himage; repeat split.
Qed.

(** X18: when the form is complete and the invocation returns an image,
    the page holds that image as the result, shows [Complete!] and no
    error, and does not open the confirmation dialog by itself. *)
Theorem returned_image_is_shown (skipDetection : bool) (ui : App.UI) (s : State)
        (image url : jsstring) :
  App.originalImage (App.state ui) = Some image ->
  truthy image = true ->
  truthy (App.plateNumber (App.state ui)) = true ->
  truthy (App.plateCountry (App.state ui)) = true ->
  fst (generatePlate image (App.plateNumber (App.state ui))
         (App.plateCountry (App.state ui)) (App.mode (App.state ui))
         true skipDetection s) = Ok url ->
  let ui' := fst (App.handleGenerate skipDetection ui s) in
  App.generatedImage (App.state ui') = Some url
  /\ App.statusMessage (App.state ui') = Some (lit "Complete!")
  /\ App.error (App.state ui') = None
  /\ App.isGenerating (App.state ui') = false
  /\ App.showConfirmation ui' = App.showConfirmation ui.
Proof.
  intros Himage Htruthy Hnumber Hcountry Hrun ui'. unfold ui'.
  rewrite (handleGenerate_reaches _ _ _ _ Himage Htruthy Hnumber Hcountry).
  cbv zeta. rewrite Hrun. simpl fst.
  match goal with
  | |- context [App.report_all ?l ?u] =>
      destruct (report_all_keeps l u) as [H1 [_ [_ [_ [_ [_ [_ H8]]]]]]]
  end.
  simpl. rewrite H1, H8. repeat split.
Qed.

(** X19: when the invocation throws the confirmation signal, the page
    opens the confirmation dialog and shows no error: it is not
    generating, its status is empty and the earlier result stays. *)
Theorem confirmation_signal_opens_dialog (skipDetection : bool) (ui : App.UI) (s : State)
        (image : jsstring) :
  App.originalImage (App.state ui) = Some image ->
  truthy image = true ->
  truthy (App.plateNumber (App.state ui)) = true ->
  truthy (App.plateCountry (App.state ui)) = true ->
  fst (generatePlate image (App.plateNumber (App.state ui))
         (App.plateCountry (App.state ui)) (App.mode (App.state ui))
         true skipDetection s) = Throw (Error PLATE_DETECTED_CONFIRMATION) ->
  let ui' := fst (App.handleGenerate skipDetection ui s) in
  App.showConfirmation ui' = true
  /\ App.error (App.state ui') = None
  /\ App.isGenerating (App.state ui') = false
  /\ App.statusMessage (App.state ui') = Some []
  /\ App.generatedImage (App.state ui') = App.generatedImage (App.state ui).
Proof.
  intros Himage Htruthy Hnumber Hcountry Hrun ui'. unfold ui'.
  rewrite (handleGenerate_reaches _ _ _ _ Himage Htruthy Hnumber Hcountry).
  cbv zeta. rewrite Hrun. simpl fst.
  match goal with
  | |- context [App.report_all ?l ?u] =>
      destruct (report_all_keeps l u) as [_ [_ [H3 [_ [_ [_ [_ H8]]]]]]]
  end.
  unfold App.on_failure.
  change (App.asks_confirmation (Error PLATE_DETECTED_CONFIRMATION)) with true.
  cbv iota. simpl. rewrite H3, H8. repeat split.
Qed.

(** A run with detection skipped, or in replace mode, never asks the
    detection question. *)
Lemma run_without_detection (skipDetection : bool) (ui : App.UI) (s : State) :
  skipDetection = true \/ App.mode (App.state ui) = replace ->
  exists new,
    calls (snd (App.handleGenerate skipDetection ui s)) = calls s ++ new
    /\ detection_calls new = 0.
Proof.
  intros Hquiet. unfold App.handleGenerate.
  assert (Hnone : exists new, calls s = calls s ++ new /\ detection_calls new = 0)
    by (exists []; now rewrite app_nil_r).
  destruct (App.originalImage (App.state ui)) as [image |]; [| exact Hnone].
  destruct (negb (truthy image)); [exact Hnone |].
  destruct (negb (truthy (App.plateNumber (App.state ui)))
            || negb (truthy (App.plateCountry (App.state ui)))); [exact Hnone |].
  destruct (generatePlate_trace image (App.plateNumber (App.state ui))
              (App.plateCountry (App.state ui)) (App.mode (App.state ui))
              true skipDetection s)
    as [detect [attempts [processed [Hc [Hd [_ Hall]]]]]].
  destruct (generatePlate image _ _ _ true skipDetection s) as [result s'].
  simpl snd in Hc.
  exists (detect ++ List.concat attempts).
  split; [destruct result; exact Hc |].
  rewrite detection_calls_app, (attempts_ask_no_detection _ _ _ _ _ Hall).
  destruct Hd as [-> | [Hmode [Hskip _]]]; [reflexivity |].
  destruct Hquiet as [H | H]; [rewrite Hskip in H | rewrite Hmode in H]; discriminate.
Qed.

(** X20: whichever way the confirmation dialog is answered, the run
    that follows never asks the detection question again: neither the
    run [handleConfirmAdd] starts, nor a run started after
    [handleSwitchToReplace], which closes the dialog and puts the page
    in replace mode. *)
Theorem dialog_answers_skip_detection (ui : App.UI) (s : State) :
  (exists new,
     calls (snd (App.handleConfirmAdd ui s)) = calls s ++ new
     /\ detection_calls new = 0)
  /\ (exists new,
        calls (snd (App.handleGenerate false (App.handleSwitchToReplace ui) s))
        = calls s ++ new
        /\ detection_calls new = 0)
  /\ App.showConfirmation (App.handleSwitchToReplace ui) = false
  /\ App.mode (App.state (App.handleSwitchToReplace ui)) = replace.
Proof.
  split; [| split; [| split; reflexivity]].
  - unfold App.handleConfirmAdd. apply run_without_detection. now left.
  - apply run_without_detection. now right.
Qed.

(** X21: when the form is complete and the invocation throws anything
    but the confirmation signal, the page shows the message of that very
    error (the fallback text is never needed), is not generating, keeps
    the earlier result and leaves the dialog as it was. *)
Theorem failed_run_shows_the_thrown_message
        (skipDetection : bool) (ui : App.UI) (s s' : State)
        (image : jsstring) (e : JsError) :
  App.originalImage (App.state ui) = Some image ->
  truthy image = true ->
  truthy (App.plateNumber (App.state ui)) = true ->
  truthy (App.plateCountry (App.state ui)) = true ->
  generatePlate image (App.plateNumber (App.state ui))
    (App.plateCountry (App.state ui)) (App.mode (App.state ui))
    true skipDetection s = (Throw e, s') ->
  App.asks_confirmation e = false ->
  let ui' := fst (App.handleGenerate skipDetection ui s) in
  App.error (App.state ui') = message e
  /\ App.isGenerating (App.state ui') = false
  /\ App.generatedImage (App.state ui') = App.generatedImage (App.state ui)
  /\ App.showConfirmation ui' = App.showConfirmation ui.
Proof.
  intros Himage Htruthy Hnumber Hcountry Hrun Hother ui'. unfold ui'.
  rewrite (handleGenerate_reaches _ _ _ _ Himage Htruthy Hnumber Hcountry).
  cbv zeta. rewrite Hrun. simpl fst. simpl snd.
  destruct (thrown_message _ _ _ _ _ _ _ _ _ Hrun) as [msg [Hmsg Hfull]].
  match goal with
  | |- context [App.report_all ?l ?u] =>
      destruct (report_all_keeps l u) as [H1 [_ [H3 _]]]
  end.
  unfold App.on_failure. rewrite Hother. simpl.
  rewrite H1, H3, Hmsg. simpl or_else. rewrite Hfull. repeat split.
Qed.

(** In add mode with detection not skipped, a detector that reports a
    plate ends the invocation with the confirmation signal, the
    detection request being the only one issued. *)
Lemma detection_stops (image plateNumber plateCountry : jsstring) (flag : bool)
      (s0 : State) (processed : jsstring) :
  truthy (or_else apiKey []) = true ->
  preprocessImage dom image = Ok processed ->
  fst (checkForExistingPlate processed s0) = Ok true ->
  exists s',
    generatePlate image plateNumber plateCountry add flag false s0
    = (Throw (Error PLATE_DETECTED_CONFIRMATION), s')
    /\ calls s' = calls s0 ++ [detection_request processed].
Proof.
  intros Hkey Hpre Hdetect.
  destruct (notify_run flag (lit "Checking image...") s0) as [s1 [Hn1 [Hr1 [Hc1 _]]]].
  destruct (notify_run flag (lit "Scanning for existing plates...") s1)
    as [s2 [Hn2 [Hr2 [Hc2 _]]]].
  destruct (checkForExistingPlate_run processed s2) as [b [s3 [Hd [Hb [_ [Hc3 _]]]]]].
  destruct (checkForExistingPlate_run processed s0) as [b0 [s3' [Hd0 [Hb0 _]]]].
  rewrite Hd0 in Hdetect. simpl in Hdetect. injection Hdetect as ->.
  rewrite Hr2, Hr1, <- Hb0 in Hb. subst b.
  exists s3. split; [| rewrite Hc3, Hc2, Hc1; reflexivity].
  unfold generatePlate, prepare. rewrite Hkey. simpl negb. cbv iota.
  unfold bind at 1 2. rewrite Hn1. unfold bind at 1, await. rewrite Hpre.
  unfold bind at 1 2. rewrite Hn2. unfold bind at 1. rewrite Hd. reflexivity.
Qed.

(** X22: end to end, in add mode: with a complete form, a credential
    and an image that preprocesses, when the detector reports a plate
    the page opens the confirmation dialog with no error shown, and the
    service has received the detection request and nothing else. *)
Theorem detected_plate_asks_the_user
        (ui : App.UI) (s : State) (image processed : jsstring) :
  App.originalImage (App.state ui) = Some image ->
  truthy image = true ->
  truthy (App.plateNumber (App.state ui)) = true ->
  truthy (App.plateCountry (App.state ui)) = true ->
  App.mode (App.state ui) = add ->
  truthy (or_else apiKey []) = true ->
  preprocessImage dom image = Ok processed ->
  fst (checkForExistingPlate processed s) = Ok true ->
  App.showConfirmation (fst (App.handleGenerate false ui s)) = true
  /\ App.error (App.state (fst (App.handleGenerate false ui s))) = None
  /\ App.isGenerating (App.state (fst (App.handleGenerate false ui s))) = false
  /\ calls (snd (App.handleGenerate false ui s))
     = calls s ++ [detection_request processed].
Proof.
  intros Himage Htruthy Hnumber Hcountry Hmode Hkey Hpre Hdetect.
  rewrite (handleGenerate_reaches _ _ _ _ Himage Htruthy Hnumber Hcountry).
  cbv zeta. rewrite Hmode.
  destruct (detection_stops image (App.plateNumber (App.state ui))
              (App.plateCountry (App.state ui)) true s processed Hkey Hpre Hdetect)
    as [s' [Hrun Hcalls]].
  rewrite Hrun. simpl fst. simpl snd.
  match goal with
  | |- context [App.report_all ?l ?u] =>
      destruct (report_all_keeps l u) as [_ [_ [_ [_ [_ [_ [_ H8]]]]]]]
  end.
  unfold App.on_failure.
  change (App.asks_confirmation (Error PLATE_DETECTED_CONFIRMATION)) with true.
  cbv iota. simpl. rewrite H8. repeat split. exact Hcalls.
Qed.

End Page.

(** ** Further runs on the scripted runtimes *)

Module MoreRuns.

Import Script.

Lemma missing_key_fails_first_witness :
  @generatePlate Fixtures.keyless photo plate country add true false
    (Fixtures.start_in Fixtures.keyless first_try)
  = (Throw (Error API_KEY_MESSAGE), Fixtures.start_in Fixtures.keyless first_try).
Proof.
  apply (@missing_key_fails_first Fixtures.keyless photo plate country add true false).
  reflexivity.
Defined.

Lemma rejected_image_stops_invocation_witness :
  exists s',
    @generatePlate Fixtures.glassy photo plate country add true false
      (Fixtures.start_in Fixtures.glassy first_try)
    = (Throw (Error TRANSPARENT_MESSAGE), s')
    /\ calls s' = [].
Proof.
  destruct (@rejected_image_stops_invocation Fixtures.glassy photo plate country add
              true false (Fixtures.start_in Fixtures.glassy first_try)
              (Error TRANSPARENT_MESSAGE))
    as [s' [Hrun [Hcalls _]]].
  - reflexivity.
  - vm_compute. reflexivity.
  - exists s'. split; [exact Hrun | exact Hcalls].
Defined.

Lemma detection_only_when_adding_witness :
  detection_calls
    (calls (snd (@generatePlate runtime photo plate country replace true false
                   (start second_try)))) = 0.
Proof.
  destruct (@detection_only_when_adding runtime photo plate country replace true false
              (start second_try)) as [new [Hcalls [_ Hnone]]].
  rewrite Hcalls. apply Hnone. now left.
Defined.

Lemma progress_starts_in_order_witness :
  exists rest,
    progress_since (start [says "No."; draws "P1"; says "ABC1234"])
      (snd (@generatePlate runtime photo plate country add true false
              (start [says "No."; draws "P1"; says "ABC1234"])))
    = lit "Checking image..." :: lit "Scanning for existing plates..."
      :: lit "Generating plate..." :: rest.
Proof.
  refine (@progress_starts_in_order runtime photo plate country add true false
            (start [says "No."; draws "P1"; says "ABC1234"])
            (snd (@prepare runtime photo add true false
                    (start [says "No."; draws "P1"; says "ABC1234"])))
            photo eq_refl _).
  vm_compute. reflexivity.
Defined.

Lemma produced_image_is_never_discarded_witness :
  exists returned,
    fst (@generatePlate runtime photo plate country replace true false
           (start never_verified)) = Ok returned.
Proof.
  refine (@produced_image_is_never_discarded runtime photo plate country replace true
            false (start never_verified) _ _ photo (PNG_PREFIX ++ lit "P1") 1 _ _ _ _).
  - vm_compute. reflexivity.
  - unfold MAX_RETRIES. lia.
  - intros j Hj. lia.
  - vm_compute. reflexivity.
Defined.

Lemma empty_reading_never_verifies_witness :
  fst (@verifyPlateContent runtime render plate (start [says "--"])) = Ok false.
Proof.
  refine (@empty_reading_never_verifies runtime Runs.script_latin_upper render plate
            (start [says "--"]) {| text := Some (lit "--"); candidates := None |} []
            eq_refl eq_refl _).
  vm_compute. discriminate.
Defined.

Lemma same_characters_verify_witness :
  fst (@verifyPlateContent runtime render (lit "abc-1234") (start [says "ABC 1234"]))
  = Ok true.
Proof.
  exact (@same_characters_verify runtime Runs.script_latin_upper render (lit "abc-1234")
           (start [says "ABC 1234"])
           {| text := Some (lit "ABC 1234"); candidates := None |} []
           eq_refl eq_refl).
Defined.

Lemma verifier_never_throws_witness :
  fst (@verifyPlateContent runtime render plate (start [fails "down"])) = Ok false.
Proof.
  destruct (@verifier_never_throws runtime render plate (start [fails "down"]))
    as [b [s' [Hrun [_ [_ Hfail]]]]].
  rewrite Hrun. simpl. f_equal.
  apply (Hfail (Error (lit "down")) []). reflexivity.
Defined.

Lemma data_uri_parts_are_recovered_witness :
  payload_of (data_uri (lit "image/jpeg") (lit "AAAA")) = Some (lit "AAAA")
  /\ match_mime (data_uri (lit "image/jpeg") (lit "AAAA")) = Some (lit "image/jpeg").
Proof.
  destruct (data_uri_parts_are_recovered (lit "image/jpeg") (lit "AAAA"))
    as [Hp [Hm _]].
  - discriminate.
  - intros H. vm_compute in H. intuition discriminate.
  - intros H. vm_compute in H. intuition discriminate.
  - intros H. vm_compute in H. intuition discriminate.
  - split; [exact Hp | exact Hm].
Defined.

Lemma preprocess_falls_back_to_input_witness :
  preprocessImage headless photo = Ok photo.
Proof.
  apply (proj1 (preprocess_falls_back_to_input headless photo)). now left.
Defined.

Lemma cleanText_is_a_normal_form_witness :
  @cleanText runtime (@cleanText runtime (lit "ab-12 cd"))
  = @cleanText runtime (lit "ab-12 cd").
Proof.
  exact (proj2 (@cleanText_is_a_normal_form runtime Runs.script_latin_upper
                  (lit "ab-12 cd"))).
Defined.

Lemma incomplete_form_sends_nothing_witness :
  snd (@App.handleGenerate runtime false Fixtures.unnumbered (start first_try))
  = start first_try
  /\ App.error (App.state (fst (@App.handleGenerate runtime false Fixtures.unnumbered
                                  (start first_try))))
     = Some App.FILL_IN_MESSAGE.
Proof.
  destruct (@incomplete_form_sends_nothing runtime false Fixtures.unnumbered
              (start first_try)) as [Hsame [_ Hshown]].
  - right. left. reflexivity.
  - split; [exact Hsame |]. apply Hshown. reflexivity.
Defined.

Lemma run_ends_settled_witness :
  App.isGenerating
    (App.state (fst (@App.handleGenerate runtime true Fixtures.filled (start first_try))))
  = false.
Proof.
  apply (proj1 (@run_ends_settled runtime true Fixtures.filled (start first_try))).
  reflexivity.
Defined.

Lemma returned_image_is_shown_witness :
  App.generatedImage
    (App.state (fst (@App.handleGenerate runtime true Fixtures.filled (start first_try))))
  = Some (PNG_PREFIX ++ lit "P1").
Proof.
  refine (proj1 (@returned_image_is_shown runtime true Fixtures.filled (start first_try)
                   photo (PNG_PREFIX ++ lit "P1") eq_refl eq_refl eq_refl eq_refl _)).
  vm_compute. reflexivity.
Defined.

Lemma confirmation_signal_opens_dialog_witness :
  App.showConfirmation
    (fst (@App.handleGenerate runtime false Fixtures.filled (start plate_present)))
  = true.
Proof.
  refine (proj1 (@confirmation_signal_opens_dialog runtime false Fixtures.filled
                   (start plate_present) photo eq_refl eq_refl eq_refl eq_refl _)).
  vm_compute. reflexivity.
Defined.

Lemma failed_run_shows_the_thrown_message_witness :
  App.error
    (App.state (fst (@App.handleGenerate runtime true Fixtures.filled (start no_image))))
  = Some (lit "overloaded").
Proof.
  refine (proj1 (@failed_run_shows_the_thrown_message runtime true Fixtures.filled
                   (start no_image) _ photo (Error (lit "overloaded"))
                   eq_refl eq_refl eq_refl eq_refl _ eq_refl)).
  vm_compute. reflexivity.
Defined.

Lemma detected_plate_asks_the_user_witness :
  App.showConfirmation
    (fst (@App.handleGenerate runtime false Fixtures.filled (start plate_present)))
  = true
  /\ calls (snd (@App.handleGenerate runtime false Fixtures.filled (start plate_present)))
     = [detection_request photo].
Proof.
  destruct (@detected_plate_asks_the_user runtime Fixtures.filled (start plate_present)
              photo photo eq_refl eq_refl eq_refl eq_refl eq_refl eq_refl eq_refl eq_refl)
    as [Hshown [_ [_ Hcalls]]].
  split; [exact Hshown | exact Hcalls].
Defined.

Lemma quiet_returns : Callback.Quiet (@Callback.quiet runtime).
Proof. intros history status r. reflexivity. Defined.

Lemma returning_callback_is_only_observed_witness :
  Callback.Quiet (@Callback.quiet runtime)
  /\ fst (@Callback.generatePlate runtime photo plate country replace
            (Some Callback.quiet) false (start second_try))
     = fst (@Callback.generatePlate runtime photo plate country replace
              None false (start second_try)).
Proof.
  split; [exact quiet_returns |].
  exact (proj1 (@returning_callback_is_only_observed runtime photo plate country replace
                  false Callback.quiet (start second_try) quiet_returns)).
Defined.


Lemma callback_failure_before_the_loop_escapes_witness :
  exists s',
    @Callback.generatePlate runtime photo plate country add
      (Some (Fixtures.touchy (lit "Scanning for existing plates...") Fixtures.nothing))
      false (start first_try)
    = (Throw Fixtures.nothing, s')
    /\ calls s' = [].
Proof.
  apply (@callback_failure_before_the_loop_escapes runtime photo plate country add false
           (Fixtures.touchy (lit "Scanning for existing plates...") Fixtures.nothing)
           (start first_try) Fixtures.nothing eq_refl).
  right. split; [reflexivity | split; [reflexivity |]].
  exists first_try, first_try, photo.
  split; [vm_compute; reflexivity | split; vm_compute; reflexivity].
Defined.

Lemma callback_failure_in_an_attempt_is_captured_witness :
  exists s',
    @Callback.attempt_body runtime plate country replace
      (Some (Fixtures.touchy (lit "Verifying plate text...") Fixtures.nothing))
      photo 1 (start first_try)
    = (Ok None, s')
    /\ lastError s' = Some Fixtures.nothing
    /\ lastGeneratedImage s' = PNG_PREFIX ++ lit "P1"
    /\ calls s' = [generation_request plate country replace photo].
Proof.
  refine (proj2 (@callback_failure_in_an_attempt_is_captured runtime plate country replace
                   (Fixtures.touchy (lit "Verifying plate text...") Fixtures.nothing)
                   photo 1 (start first_try) Fixtures.nothing [says "ABC 1234"])
            (PNG_PREFIX ++ lit "P1")
            (snd (@Callback.produce_image runtime plate country replace
                    (Some (Fixtures.touchy (lit "Verifying plate text...")
                             Fixtures.nothing))
                    photo 1 (start first_try))) _ _).
  - vm_compute. reflexivity.
  - vm_compute. reflexivity.
Defined.

End MoreRuns.

(** ** After a detector that reports nothing *)

Section Proceeding.

Context {R : Runtime}.
Variables (imageBase64 plateNumber plateCountry : jsstring).
Variable onProgress : bool.

(** The loop, when it has an attempt to make, starts with the
    generation request. *)
Lemma loop_first_request (mode : Mode) (processed : jsstring) (a : nat) (l : list nat)
      (s : State) :
  exists rest,
    calls (snd (retry_loop plateNumber plateCountry mode onProgress processed (a :: l) s))
    = calls s ++ generation_request plateNumber plateCountry mode processed :: rest.
Proof.
  destruct (attempt_body_trace plateNumber plateCountry mode onProgress processed a s)
    as [new [Hc Ht]].
  destruct (attempt_body_run plateNumber plateCountry mode onProgress processed a s)
    as [returned [s1 [_ [Hb _]]]].
  rewrite Hb in Hc. simpl snd in Hc. simpl. unfold bind. rewrite Hb.
  assert (Hnew : exists tail,
             new = generation_request plateNumber plateCountry mode processed :: tail).
  { destruct Ht as [-> | [url ->]]; eexists; reflexivity. }
  destruct Hnew as [tail ->].
  destruct returned as [url |].
  - exists tail. exact Hc.
  - destruct (retry_loop_trace plateNumber plateCountry mode onProgress processed l s1)
      as [attempts [Hc' _]].
    exists (tail ++ List.concat attempts). rewrite Hc', Hc, <- app_assoc. reflexivity.
Qed.

(** X24: in add mode with detection not skipped, a detector that
    reports no plate (it answered without [YES], or its call failed)
    does not hold the invocation up: the detection request is followed
    at once by the first generation request. *)
Theorem undetected_plate_proceeds (s0 : State) (processed : jsstring) :
  truthy (or_else apiKey []) = true ->
  preprocessImage dom imageBase64 = Ok processed ->
  fst (checkForExistingPlate processed s0) = Ok false ->
  exists rest,
    calls (snd (generatePlate imageBase64 plateNumber plateCountry add onProgress
                  false s0))
    = calls s0 ++ detection_request processed
      :: generation_request plateNumber plateCountry add processed :: rest.
Proof.
  intros Hkey Hpre Hdetect.
  destruct (notify_run onProgress (lit "Checking image...") s0)
    as [s1 [Hn1 [Hr1 [Hc1 _]]]].
  destruct (notify_run onProgress (lit "Scanning for existing plates...") s1)
    as [s2 [Hn2 [Hr2 [Hc2 _]]]].
  destruct (checkForExistingPlate_run processed s2) as [b [s3 [Hd [Hb [_ [Hc3 _]]]]]].
  destruct (checkForExistingPlate_run processed s0) as [b0 [s3' [Hd0 [Hb0 _]]]].
  rewrite Hd0 in Hdetect. simpl in Hdetect. injection Hdetect as ->.
  rewrite Hr2, Hr1, <- Hb0 in Hb. subst b.
  assert (Hprep : exists s4,
             prepare imageBase64 add onProgress false s0 = (Ok processed, s4)
             /\ calls s4 = calls s0 ++ [detection_request processed]).
  { eexists. split.
    - unfold prepare. rewrite Hkey. change (negb true) with false. cbv iota.
      unfold bind at 1. rewrite Hn1. unfold bind at 1, await. rewrite Hpre.
      unfold bind at 1 2. rewrite Hn2. unfold bind at 1. rewrite Hd.
      unfold_monad. reflexivity.
    - simpl. rewrite Hc3, Hc2, Hc1. reflexivity. }
  destruct Hprep as [s4 [Hprep Hc4]].
  rewrite generatePlate_unfold, Hprep.
  change (seq 1 MAX_RETRIES) with (1 :: seq 2 3).
  destruct (loop_first_request add processed 1 (seq 2 3) s4) as [rest Hloop].
  destruct (retry_loop_run plateNumber plateCountry add onProgress processed
              (1 :: seq 2 3) s4) as [returned [s5 [_ [Hrun _]]]].
  rewrite Hrun in *. simpl snd in Hloop. exists rest.
  destruct returned; [simpl | rewrite conclude_state];
    rewrite Hloop, Hc4, <- app_assoc; reflexivity.
Qed.

End Proceeding.

(** ** The submit button *)

Section Submit.

Context {R : Runtime}.

(** X23: when the submit button is rendered enabled, the form is
    complete and the page is not generating, so a run of
    [handleGenerate] does invoke the service: the state it leaves the
    service in is the one [generatePlate] leaves. *)
Theorem enabled_submit_reaches_the_service
        (skipDetection : bool) (ui : App.UI) (s : State) :
  App.submit_disabled ui = false ->
  App.isGenerating (App.state ui) = false
  /\ exists image,
       App.originalImage (App.state ui) = Some image
       /\ truthy image = true
       /\ snd (App.handleGenerate skipDetection ui s)
          = snd (generatePlate image (App.plateNumber (App.state ui))
                   (App.plateCountry (App.state ui)) (App.mode (App.state ui))
                   true skipDetection s).
Proof.
  unfold App.submit_disabled. cbv zeta. rewrite !orb_false_iff, !negb_false_iff.
  intros [[[Himage Hnumber] Hcountry] Hidle]. split; [exact Hidle |].
  destruct (App.originalImage (App.state ui)) as [image |] eqn:Horig;
    [| discriminate].
  assert (Htruthy : truthy image = true) by (destruct image; [discriminate | reflexivity]).
  exists image. split; [reflexivity | split; [exact Htruthy |]].
  now rewrite (handleGenerate_reaches _ _ _ _ Horig Htruthy Hnumber Hcountry).
Qed.

End Submit.

Module SubmitRuns.

Import Script.

Lemma undetected_plate_proceeds_witness :
  exists rest,
    calls (snd (@generatePlate runtime photo plate country add true false
                  (start [fails "down"; draws "P1"; says "ABC1234"])))
    = detection_request photo :: generation_request plate country add photo :: rest.
Proof.
  destruct (@undetected_plate_proceeds runtime photo plate country true
              (start [fails "down"; draws "P1"; says "ABC1234"]) photo
              eq_refl eq_refl eq_refl) as [rest Hcalls].
  exists rest. exact Hcalls.
Defined.

Lemma enabled_submit_reaches_the_service_witness :
  App.submit_disabled Fixtures.filled = false
  /\ snd (@App.handleGenerate runtime true Fixtures.filled (start first_try))
     = snd (@generatePlate runtime photo plate country add true true (start first_try)).
Proof.
  split; [reflexivity |].
  destruct (@enabled_submit_reaches_the_service runtime true Fixtures.filled
              (start first_try) eq_refl) as [_ [image [Himage [_ Hsame]]]].
  injection Himage as <-. exact Hsame.
Defined.

End SubmitRuns.
